(** * OPML bundle builder and validator: a shallow embedding of
      [scripts/build_bundles.py] and the properties of its two components.

    The script validates OPML documents ([OPMLValidator.validate_opml]) and
    merges the body sections of several documents into one bundle
    ([BundleBuilder.merge_opml_files], [BundleBuilder.build_bundle]).

    Element trees are values: the script never shares a node between two
    trees it later mutates (every source is parsed afresh), so appending a
    node to the merged body is appending the subtree.  What the storage and
    the libraries answer ([Path.exists], [ET.parse], [yaml.safe_load],
    [mkdir], opening the output file) is read from a [World]; what the
    script does to the outside (printed lines, the directory it creates,
    the file it writes) is recorded as a list of events, in order.
    Python exceptions are explicit: a computation either returns or raises.
    Strings are the UTF-8 bytes of Python's.  Printing and [glob] always
    return, and so does the existence check of the bundles directory, a
    fixed path; the check of a source path may raise.  The driver
    ([build_all_bundles], [main]) runs against a storage that changes with
    what the builds create and write. *)

From Stdlib Require Import String Ascii List Bool Arith ZArith Lia.
Import ListNotations.
Open Scope string_scope.
Open Scope list_scope.
Set Warnings "-register-all".

(** ** Element trees ([xml.etree.ElementTree.Element]) *)

Inductive Element : Type :=
| Elem (tag : string) (attrib : list (string * string))
       (text tail : option string) (children : list Element).

Definition tag (e : Element) : string :=
  match e with Elem t _ _ _ _ => t end.
Definition attrib (e : Element) : list (string * string) :=
  match e with Elem _ a _ _ _ => a end.
Definition text (e : Element) : option string :=
  match e with Elem _ _ x _ _ => x end.
Definition tail (e : Element) : option string :=
  match e with Elem _ _ _ x _ => x end.
Definition children (e : Element) : list Element :=
  match e with Elem _ _ _ _ c => c end.

(** [elem.get(key)]: the attributes of a parsed element form a dict. *)
Fixpoint get (a : list (string * string)) (key : string) : option string :=
  match a with
  | [] => None
  | (k, v) :: rest => if String.eqb k key then Some v else get rest key
  end.

(** [elem.find(name)] for a plain tag name: the first direct child with
    that tag, [None] when there is none. *)
Definition find (e : Element) (name : string) : option Element :=
  List.find (fun c => String.eqb (tag c) name) (children e).

(** [elem.iter()]: the element and all its descendants, in document order. *)
Fixpoint iter (e : Element) : list Element :=
  match e with
  | Elem _ _ _ _ cs => e :: flat_map iter cs
  end.

(** The elements selected by [.//]: every descendant, the element itself
    left out. *)
Definition descendants (e : Element) : list Element :=
  flat_map iter (children e).

(** The predicate of [outline[@type='rss']]. *)
Definition is_rss_outline (e : Element) : bool :=
  String.eqb (tag e) "outline" &&
  match get (attrib e) "type" with
  | Some v => String.eqb v "rss"
  | None => false
  end.

(** [elem.findall(".//outline[@type='rss']")]. *)
Definition findall_rss (e : Element) : list Element :=
  filter is_rss_outline (descendants e).

(** ** Exceptions, events and the monad of the script *)

Inductive pyclass : Type :=
| ParseError | AttributeError | TypeError | OSError | YAMLError | OtherException.

(** An exception of some subclass of [Exception]; [exn_msg] is [str(e)]. *)
Record exn : Type := mkExn { exn_class : pyclass; exn_msg : string }.

Inductive outcome (A : Type) : Type :=
| Returned (a : A)
| Raised (e : exn).
Arguments Returned {A} a.
Arguments Raised {A} e.

(** Paths are kept as the expressions the script builds with [/]; the
    [World] says what each of them denotes on storage. *)
Inductive Path : Type :=
| PathOf (s : string)
| Join (p : Path) (s : string).

(** The lines the script prints, one constructor per [print] call. *)
Inductive message : Type :=
| ValidReport (file_path : Path) (rss_count : nat)
| WarnNotFound (source_file : string)
| WarnFailed (source_file : string) (err : string)
| Building (bundle_name : string)
| OutputLine (output_file : string)
| SourcesLine (n : nat)
| Created (feed_count : nat)
| BuildFailed (err : string).

Inductive event : Type :=
| Stdout (m : message)
| Mkdir (p : Path)
| WriteFile (p : Path) (data : string).

Definition run (A : Type) : Type := list event * outcome A.

Definition ret {A} (a : A) : run A := ([], Returned a).
Definition raise {A} (e : exn) : run A := ([], Raised e).
Definition emit (ev : event) : run unit := ([ev], Returned tt).
Definition call {A} (o : outcome A) : run A := ([], o).

Definition bind {A B} (c : run A) (k : A -> run B) : run B :=
  match c with
  | (t, Returned a) => let (t', r) := k a in (t ++ t', r)
  | (t, Raised e) => (t, Raised e)
  end.

(** [try: body  except Exception as e: handler e]. *)
Definition try_except {A} (body : run A) (handler : exn -> run A) : run A :=
  match body with
  | (t, Returned a) => (t, Returned a)
  | (t, Raised e) => let (t', r) := handler e in (t ++ t', r)
  end.

Notation "x <- c ;; k" := (bind c (fun x => k))
  (at level 61, c at next level, right associativity).
Notation "c ;; k" := (bind c (fun _ => k))
  (at level 61, right associativity).

Definition trace {A} (c : run A) : list event := fst c.
Definition result {A} (c : run A) : outcome A := snd c.

(** ** Bundle configurations ([yaml.safe_load] of a configuration file) *)

(** A mapping, read at the four keys the script looks up; a key that is
    absent is [None].  Present values have the types the script's
    signatures give them. *)
Record BundleMapping : Type := mkMapping {
  cfg_name : option string;
  cfg_description : option string;
  cfg_output : option string;
  cfg_sources : option (list string)
}.

Inductive yaml : Type :=
| YNone
| YBool (b : bool)
| YInt (n : Z)
| YStr (s : string)
| YSeq (l : list string)
| YMapping (m : BundleMapping).

Definition type_name (y : yaml) : string :=
  match y with
  | YNone => "NoneType"
  | YBool _ => "bool"
  | YInt _ => "int"
  | YStr _ => "str"
  | YSeq _ => "list"
  | YMapping _ => "dict"
  end.

(** [config.get(key, default)]: only a dict has [get]. *)
Definition config_get {A} (config : yaml) (key : BundleMapping -> option A)
    (default : A) : run A :=
  match config with
  | YMapping m =>
      ret (match key m with Some v => v | None => default end)
  | _ =>
      raise (mkExn AttributeError
               ("'" ++ type_name config ++ "' object has no attribute 'get'")%string)
  end.

(** ** The world the script runs in *)

Record World : Type := mkWorld {
  path_exists : Path -> bool;             (* [Path.exists()], when it returns *)
  exists_raises : Path -> option exn;     (* the error [Path.exists()] raises *)
  ET_parse : Path -> outcome Element;     (* [ET.parse(p).getroot()] *)
  yaml_safe_load : Path -> outcome yaml;  (* [open] and [yaml.safe_load] *)
  mkdir_exist_ok : Path -> outcome unit;  (* [Path.mkdir(exist_ok=True)] *)
  open_wb : Path -> outcome unit          (* opening the output file *)
}.

(** [Path.exists()]: it returns whether the path is there, or re-raises the
    error of the storage when that is not one of the not-found kind (a name
    that is too long, a directory that may not be searched). *)
Definition check_exists (w : World) (p : Path) : outcome bool :=
  match exists_raises w p with
  | Some e => Raised e
  | None => Returned (path_exists w p)
  end.

(** ** [ET.indent(tree, space="    ")] *)

Definition newline : string := String (Ascii.ascii_of_nat 10) EmptyString.

Fixpoint spaces (level : nat) : string :=
  match level with
  | O => ""
  | S n => ("    " ++ spaces n)%string
  end.

(** ["\n" + level * space]. *)
Definition indentation (level : nat) : string := (newline ++ spaces level)%string.

(** The white space of [str.strip()], on the bytes of the text: the code
    points U+0009 to U+000D, U+001C to U+0020, U+0085, U+00A0, U+1680,
    U+2000 to U+200A, U+2028, U+2029, U+202F, U+205F and U+3000. *)
Definition isspace (c : Ascii.ascii) : bool :=
  let n := Ascii.nat_of_ascii c in
  (Nat.leb 9 n && Nat.leb n 13) || (Nat.leb 28 n && Nat.leb n 32).

(** U+0085 and U+00A0, two bytes each. *)
Definition isspace2 (c1 c2 : Ascii.ascii) : bool :=
  let n1 := Ascii.nat_of_ascii c1 in
  let n2 := Ascii.nat_of_ascii c2 in
  Nat.eqb n1 194 && (Nat.eqb n2 133 || Nat.eqb n2 160).

(** The white space above U+07FF, three bytes each. *)
Definition isspace3 (c1 c2 c3 : Ascii.ascii) : bool :=
  let n1 := Ascii.nat_of_ascii c1 in
  let n2 := Ascii.nat_of_ascii c2 in
  let n3 := Ascii.nat_of_ascii c3 in
  (Nat.eqb n1 225 && Nat.eqb n2 154 && Nat.eqb n3 128) ||
  (Nat.eqb n1 226 && Nat.eqb n2 128 &&
   ((Nat.leb 128 n3 && Nat.leb n3 138) ||
    Nat.eqb n3 168 || Nat.eqb n3 169 || Nat.eqb n3 175)) ||
  (Nat.eqb n1 226 && Nat.eqb n2 129 && Nat.eqb n3 159) ||
  (Nat.eqb n1 227 && Nat.eqb n2 128 && Nat.eqb n3 128).

(** Whether a text is white space throughout: [not s.strip()]. *)
Fixpoint all_space (s : string) : bool :=
  match s with
  | EmptyString => true
  | String c1 r1 =>
      if isspace c1 then all_space r1
      else
        match r1 with
        | EmptyString => false
        | String c2 r2 =>
            if isspace2 c1 c2 then all_space r2
            else
              match r2 with
              | EmptyString => false
              | String c3 r3 => isspace3 c1 c2 c3 && all_space r3
              end
        end
  end.

(** [not x or not x.strip()]. *)
Definition blank (x : option string) : bool :=
  match x with
  | None => true
  | Some s => all_space s
  end.

Definition set_tail (e : Element) (x : option string) : Element :=
  match e with Elem t a tx _ cs => Elem t a tx x cs end.

(** The step after the loop: the tail of the last child is dedented. *)
Fixpoint dedent_last (ind : string) (cs : list Element) : list Element :=
  match cs with
  | [] => []
  | [c] => [if blank (tail c) then set_tail c (Some ind) else c]
  | c :: rest => c :: dedent_last ind rest
  end.

(** [_indent_children(elem, level)]; only texts and tails change. *)
Fixpoint indent_children (level : nat) (e : Element) : Element :=
  match e with
  | Elem tg at_ tx tl cs =>
      let child_indentation := indentation (S level) in
      let tx' := if blank tx then Some child_indentation else tx in
      let cs' :=
        map (fun child =>
               let child' :=
                 match children child with
                 | [] => child
                 | _ :: _ => indent_children (S level) child
                 end in
               if blank (tail child')
               then set_tail child' (Some child_indentation)
               else child') cs in
      Elem tg at_ tx' tl (dedent_last (indentation level) cs')
  end.

Definition indent (tree : Element) : Element :=
  match children tree with
  | [] => tree
  | _ :: _ => indent_children 0 tree
  end.

(** ** The validator and the bundle builder *)

Section Script.

(** The storage and parser the script runs against. *)
Variable w : World.

(** [tree.write(..., encoding="UTF-8", xml_declaration=True)] of the library:
    the bytes an element tree is written as. *)
Variable serialize : Element -> string.

(** [OPMLValidator.validate_opml(file_path)]. *)
Definition validate_opml (file_path : Path) : run (bool * string) :=
  try_except
    (root <- call (ET_parse w file_path) ;;
     if negb (String.eqb (tag root) "opml") then
       ret (false, ("Root element is '" ++ tag root ++ "', expected 'opml'")%string)
     else
       let head := find root "head" in
       let body := find root "body" in
       match head with
       | None => ret (false, "Missing required <head> element")
       | Some _ =>
         match body with
         | None => ret (false, "Missing required <body> element")
         | Some _ =>
           let rss_count := length (findall_rss root) in
           if Nat.eqb rss_count 0 then ret (false, "No RSS feeds found in file")
           else
             emit (Stdout (ValidReport file_path rss_count)) ;;
             ret (true, "")
         end
       end)
    (fun e =>
       match exn_class e with
       | ParseError => ret (false, ("XML parsing error: " ++ exn_msg e)%string)
       | _ => ret (false, ("Unexpected error: " ++ exn_msg e)%string)
       end).

(** [BundleBuilder]: the three directories set by [__init__]. *)
Record BundleBuilder : Type := mkBuilder {
  base_dir : Path;
  bundles_dir : Path;
  output_dir : Path
}.

Definition BundleBuilder_init (base : Path) : BundleBuilder :=
  mkBuilder base (Join base "bundles") (Join base "dist").

(** [load_bundle_config(config_file)]. *)
Definition load_bundle_config (self : BundleBuilder) (config_file : Path)
  : run yaml :=
  call (yaml_safe_load w config_file).

(** The [for source_file in source_files] loop of [merge_opml_files];
    [body] is the list of children the merged body has so far.  The
    existence check stands before the [try], so what it raises leaves the
    loop.  Inside the [try] only the parse can raise, so a source that
    fails there leaves the body as it was. *)
Fixpoint merge_sources (self : BundleBuilder) (source_files : list string)
    (body : list Element) : run (list Element) :=
  match source_files with
  | [] => ret body
  | source_file :: rest =>
      let source_path := Join (base_dir self) source_file in
      found <- call (check_exists w source_path) ;;
      if negb found then
        emit (Stdout (WarnNotFound source_file)) ;;
        merge_sources self rest body
      else
        body' <- try_except
                   (root <- call (ET_parse w source_path) ;;
                    match find root "body" with
                    | Some source_body => ret (body ++ children source_body)
                    | None => ret body
                    end)
                   (fun e =>
                      emit (Stdout (WarnFailed source_file (exn_msg e))) ;;
                      ret body) ;;
        merge_sources self rest body'
  end.

(** [merge_opml_files(source_files, bundle_name, bundle_desc)]. *)
Definition merge_opml_files (self : BundleBuilder) (source_files : list string)
    (bundle_name bundle_desc : string) : run Element :=
  let title := Elem "title" [] (Some bundle_name) None [] in
  let head := Elem "head" [] None None [title] in
  body <- merge_sources self source_files [] ;;
  ret (Elem "opml" [("version", "2.0")] None None
         [head; Elem "body" [] None None body]).

(** The four [config.get] calls that open [build_bundle], with their
    defaults: name, description, output, sources. *)
Definition read_fields (config : yaml)
  : run (string * string * string * list string) :=
  bundle_name <- config_get config cfg_name "Unnamed Bundle" ;;
  bundle_desc <- config_get config cfg_description "" ;;
  output_file <- config_get config cfg_output "bundle.opml.xml" ;;
  source_files <- config_get config cfg_sources [] ;;
  ret (bundle_name, bundle_desc, output_file, source_files).

(** [build_bundle(config_file)]. *)
Definition build_bundle (self : BundleBuilder) (config_file : Path) : run bool :=
  try_except
    (config <- load_bundle_config self config_file ;;
     fields <- read_fields config ;;
     let '(bundle_name, bundle_desc, output_file, source_files) := fields in
     emit (Stdout (Building bundle_name)) ;;
     emit (Stdout (OutputLine output_file)) ;;
     emit (Stdout (SourcesLine (length source_files))) ;;
     merged_opml <- merge_opml_files self source_files bundle_name bundle_desc ;;
     call (mkdir_exist_ok w (output_dir self)) ;;
     emit (Mkdir (output_dir self)) ;;
     let output_path := Join (output_dir self) output_file in
     let tree := indent merged_opml in
     call (open_wb w output_path) ;;
     emit (WriteFile output_path (serialize tree)) ;;
     let feed_count := length (findall_rss tree) in
     emit (Stdout (Created feed_count)) ;;
     ret true)
    (fun e =>
       emit (Stdout (BuildFailed (exn_msg e))) ;;
       ret false).

End Script.

(** ** What each source contributes to a bundle *)

Section Sources.

Variable w : World.
Variable self : BundleBuilder.

(** The root of a source that exists on storage and parses. *)
Definition loaded (source_file : string) : option Element :=
  let source_path := Join (base_dir self) source_file in
  if path_exists w source_path then
    match ET_parse w source_path with
    | Returned root => Some root
    | Raised _ => None
    end
  else None.

Definition is_loaded (source_file : string) : bool :=
  match loaded source_file with Some _ => true | None => false end.

Definition loaded_roots (source_files : list string) : list Element :=
  flat_map (fun s => match loaded s with Some r => [r] | None => [] end)
           source_files.

(** The direct children of the body section of a document. *)
Definition body_children (root : Element) : list Element :=
  match find root "body" with
  | Some b => children b
  | None => []
  end.

(** The feed entries of a document: outline nodes of type rss under its body. *)
Definition body_feeds (root : Element) : nat :=
  match find root "body" with
  | Some b => length (findall_rss b)
  | None => 0
  end.

(** The number of feed entries a source contributes. *)
Definition source_feeds (source_file : string) : nat :=
  match loaded source_file with
  | Some root => body_feeds root
  | None => 0
  end.

(** The existence check of every source of a list returns. *)
Definition checks_return (source_files : list string) : Prop :=
  forall s, In s source_files ->
            exists_raises w (Join (base_dir self) s) = None.

(** The warning a source gives rise to, if any. *)
Definition source_warning (source_file : string) : list event :=
  let source_path := Join (base_dir self) source_file in
  if path_exists w source_path then
    match ET_parse w source_path with
    | Returned _ => []
    | Raised e => [Stdout (WarnFailed source_file (exn_msg e))]
    end
  else [Stdout (WarnNotFound source_file)].

End Sources.

(** The bundle document with a given title and body children, as
    [merge_opml_files] builds it. *)
Definition bundle_document (bundle_name : string) (entries : list Element)
  : Element :=
  Elem "opml" [("version", "2.0")] None None
    [Elem "head" [] None None [Elem "title" [] (Some bundle_name) None []];
     Elem "body" [] None None entries].

(** The bundle document without entries, after [ET.indent]. *)
Definition empty_bundle_indented (bundle_name : string) : Element :=
  Elem "opml" [("version", "2.0")] (Some (indentation 1)) None
    [Elem "head" [] (Some (indentation 2)) (Some (indentation 1))
       [Elem "title" [] (Some bundle_name) (Some (indentation 1)) []];
     Elem "body" [] None (Some (indentation 0)) []].

(** The fields of a mapping as [build_bundle] reads them. *)
Definition name_of (m : BundleMapping) : string :=
  match cfg_name m with Some v => v | None => "Unnamed Bundle" end.
Definition description_of (m : BundleMapping) : string :=
  match cfg_description m with Some v => v | None => "" end.
Definition output_of (m : BundleMapping) : string :=
  match cfg_output m with Some v => v | None => "bundle.opml.xml" end.
Definition sources_of (m : BundleMapping) : list string :=
  match cfg_sources m with Some v => v | None => [] end.

Definition set_description (d : option string) (m : BundleMapping)
  : BundleMapping :=
  mkMapping (cfg_name m) d (cfg_output m) (cfg_sources m).

(** The document [build_bundle] merges for a mapping. *)
Definition merged_document (w : World) (self : BundleBuilder)
    (m : BundleMapping) : Element :=
  bundle_document (name_of m)
    (flat_map body_children (loaded_roots w self (sources_of m))).

(** A world that differs from [w] only in what the configuration file holds. *)
Definition with_config (w : World) (config : outcome yaml) : World :=
  mkWorld (path_exists w) (exists_raises w) (ET_parse w) (fun _ => config)
          (mkdir_exist_ok w) (open_wb w).

(** The shape of a tree: texts and tails erased. *)
Fixpoint shape (e : Element) : Element :=
  match e with
  | Elem tg at_ _ _ cs => Elem tg at_ None None (map shape cs)
  end.

(** Whether a call returned. *)
Definition succeeds {A} (o : outcome A) : bool :=
  match o with
  | Returned _ => true
  | Raised _ => false
  end.

(** The files a run wrote, with their bytes. *)
Fixpoint file_writes (t : list event) : list (Path * string) :=
  match t with
  | [] => []
  | WriteFile p data :: rest => (p, data) :: file_writes rest
  | _ :: rest => file_writes rest
  end.

Definition touches_storage (ev : event) : bool :=
  match ev with
  | WriteFile _ _ => true
  | Mkdir _ => true
  | Stdout _ => false
  end.

(** ** Sample documents, configurations and storage *)

(** A feed entry and a group of entries. *)
Definition feed (title url : string) : Element :=
  Elem "outline" [("type", "rss"); ("text", title); ("xmlUrl", url)]
       None None [].
Definition group (title : string) (entries : list Element) : Element :=
  Elem "outline" [("text", title)] None None entries.

Definition opml_document (title : string) (entries : list Element) : Element :=
  Elem "opml" [("version", "2.0")] None None
    [Elem "head" [] None None [Elem "title" [] (Some title) None []];
     Elem "body" [] None None entries].

(** Three feeds, two of them inside a group. *)
Definition doc_a : Element :=
  opml_document "A"
    [group "News" [feed "a1" "http://a/1"; feed "a2" "http://a/2"];
     feed "a3" "http://a/3"].

(** Two feeds. *)
Definition doc_b : Element :=
  opml_document "B" [feed "b1" "http://b/1"; feed "b2" "http://b/2"].

(** One feed under the body and one more next to it, under the root. *)
Definition doc_stray : Element :=
  Elem "opml" [("version", "2.0")] None None
    [Elem "head" [] None None [Elem "title" [] (Some "S") None []];
     Elem "body" [] None None [feed "s1" "http://s/1"];
     feed "s2" "http://s/2"].

(** A root without children, and one with a head only. *)
Definition doc_bare : Element := Elem "opml" [("version", "2.0")] None None [].
Definition doc_head_only : Element :=
  Elem "opml" [("version", "2.0")] None None
    [Elem "head" [] None None [Elem "title" [] (Some "H") None []]].

Definition repo : Path := PathOf "repo".
Definition builder : BundleBuilder := BundleBuilder_init repo.

Definition config_path (name : string) : Path :=
  Join (bundles_dir builder) name.

Definition file_name (p : Path) : string :=
  match p with
  | PathOf s => s
  | Join _ s => s
  end.

Definition tech_config : BundleMapping :=
  mkMapping (Some "Tech") None (Some "tech.opml.xml")
            (Some ["a.opml.xml"; "b.opml.xml"]).

Definition mixed_config : BundleMapping :=
  mkMapping (Some "Mixed") (Some "with failures") (Some "mixed.opml.xml")
            (Some ["a.opml.xml"; "gone.opml.xml"; "broken.opml.xml";
                   "b.opml.xml"]).

Definition missing_config : BundleMapping :=
  mkMapping None None None (Some ["x.opml.xml"; "y.opml.xml"]).

(** A mapping whose output file name is empty: the output path is the
    output directory itself. *)
Definition nameless_config : BundleMapping :=
  mkMapping (Some "Nameless") None (Some "")
            (Some ["x.opml.xml"; "y.opml.xml"]).

Definition is_a_directory : exn :=
  mkExn OSError "[Errno 21] Is a directory".

(** A source name of 309 bytes, longer than a file name may be, and what
    the existence check raises for such a name. *)
Definition long_source : string :=
  (String.concat "" (repeat "0123456789" 30) ++ ".opml.xml")%string.

Definition name_too_long : exn :=
  mkExn OSError "[Errno 36] File name too long".

Definition raises_when_too_long (p : Path) : option exn :=
  if Nat.ltb 255 (String.length (file_name p)) then Some name_too_long
  else None.

(** A mapping that lists the over-long name between two documents. *)
Definition long_config : BundleMapping :=
  mkMapping (Some "Long") None (Some "long.opml.xml")
            (Some ["a.opml.xml"; long_source; "b.opml.xml"]).

Definition mismatched : exn :=
  mkExn ParseError "mismatched tag: line 3, column 2".
Definition not_found : exn :=
  mkExn OSError "[Errno 2] No such file or directory".

(** A storage holding the sample documents under their file names, one
    file that is not well-formed, and the sample configurations.  Any
    directory can be created and any file written; a path that ends in the
    empty name is the directory before it, which cannot be opened as a
    file; the existence check of a name that is too long raises. *)
Definition sample_world : World :=
  mkWorld
    (fun p =>
       let n := file_name p in
       String.eqb n "a.opml.xml" || String.eqb n "b.opml.xml" ||
       String.eqb n "broken.opml.xml" || String.eqb n "stray.opml.xml" ||
       String.eqb n "bare.opml.xml" || String.eqb n "head.opml.xml")
    raises_when_too_long
    (fun p =>
       let n := file_name p in
       if String.eqb n "a.opml.xml" then Returned doc_a
       else if String.eqb n "b.opml.xml" then Returned doc_b
       else if String.eqb n "stray.opml.xml" then Returned doc_stray
       else if String.eqb n "bare.opml.xml" then Returned doc_bare
       else if String.eqb n "head.opml.xml" then Returned doc_head_only
       else if String.eqb n "broken.opml.xml" then Raised mismatched
       else Raised not_found)
    (fun p =>
       let n := file_name p in
       if String.eqb n "tech.yaml" then Returned (YMapping tech_config)
       else if String.eqb n "mixed.yaml" then Returned (YMapping mixed_config)
       else if String.eqb n "missing.yaml"
       then Returned (YMapping missing_config)
       else if String.eqb n "nameless.yaml"
       then Returned (YMapping nameless_config)
       else if String.eqb n "long.yaml" then Returned (YMapping long_config)
       else if String.eqb n "empty.yaml" then Returned YNone
       else Raised not_found)
    (fun _ => Returned tt)
    (fun p => if String.eqb (file_name p) "" then Raised is_a_directory
              else Returned tt).

(** A storage on which nothing can be written. *)
Definition read_only_world : World :=
  mkWorld (path_exists sample_world) (exists_raises sample_world)
          (ET_parse sample_world) (yaml_safe_load sample_world)
          (fun _ => Returned tt)
          (fun _ => Raised (mkExn OSError "[Errno 30] Read-only file system")).

(** A writer for the samples: the XML declaration and the text of a tree
    whose names carry no namespace and whose attribute values hold no
    quote or line break. *)
Definition dquote : string := String (Ascii.ascii_of_nat 34) EmptyString.

Fixpoint escape_cdata (s : string) : string :=
  match s with
  | EmptyString => ""
  | String c r =>
      ((if Ascii.eqb c "&"%char then "&amp;"
        else if Ascii.eqb c "<"%char then "&lt;"
        else if Ascii.eqb c ">"%char then "&gt;"
        else String c "") ++ escape_cdata r)%string
  end.

Definition opt_cdata (x : option string) : string :=
  match x with
  | Some s => escape_cdata s
  | None => ""
  end.

Fixpoint write_element (e : Element) : string :=
  match e with
  | Elem tg at_ tx tl cs =>
      let attrs :=
        String.concat ""
          (map (fun kv => (" " ++ fst kv ++ "=" ++ dquote ++
                           escape_cdata (snd kv) ++ dquote)%string) at_) in
      let inner :=
        match tx, cs with
        | None, [] => " />"
        | Some EmptyString, [] => " />"
        | _, _ => (">" ++ opt_cdata tx ++
                   String.concat "" (map write_element cs) ++
                   "</" ++ tg ++ ">")%string
        end in
      ("<" ++ tg ++ attrs ++ inner ++ opt_cdata tl)%string
  end.

Definition write_xml (e : Element) : string :=
  ("<?xml version='1.0' encoding='UTF-8'?>" ++ newline ++ write_element e)%string.

(** ** Further definitions: contents of a tree, storage over time, the driver *)

(** A text or tail that is not blank. *)
Definition kept (x : option string) : option string :=
  if blank x then None else x.

(** What indentation leaves of an element below the root: its tag, its
    attributes and its children, its text unless it has children and the
    text is blank, and its tail unless that is blank. *)
Fixpoint below (e : Element) : Element :=
  match e with
  | Elem tg at_ tx tl cs =>
      Elem tg at_
           (match cs with [] => tx | _ :: _ => kept tx end)
           (kept tl) (map below cs)
  end.

(** The content of a tree: the same, with the tail of the root as it is. *)
Definition content (e : Element) : Element :=
  set_tail (below e) (tail e).

(** What [_indent_children] does to one child of an element at [level]. *)
Definition indent_child (level : nat) (child : Element) : Element :=
  let child' :=
    match children child with
    | [] => child
    | _ :: _ => indent_children (S level) child
    end in
  if blank (tail child')
  then set_tail child' (Some (indentation (S level)))
  else child'.

(** Whether an event is the failure line of [build_bundle]. *)
Definition is_failure_line (ev : event) : bool :=
  match ev with
  | Stdout (BuildFailed _) => true
  | _ => false
  end.

(** Whether an event is the closing line of a build that went through. *)
Definition is_created_line (ev : event) : bool :=
  match ev with
  | Stdout (Created _) => true
  | _ => false
  end.

(** A storage given by the documents and configurations it holds, by file
    name; nothing else exists, and every directory and file can be written. *)
Fixpoint lookup {A} (name : string) (l : list (string * A)) : option A :=
  match l with
  | [] => None
  | (k, v) :: rest => if String.eqb k name then Some v else lookup name rest
  end.

Definition world_of (docs : list (string * outcome Element))
    (configs : list (string * yaml)) : World :=
  mkWorld
    (fun p => match lookup (file_name p) docs with
              | Some _ => true
              | None => false
              end)
    raises_when_too_long
    (fun p => match lookup (file_name p) docs with
              | Some o => o
              | None => Raised not_found
              end)
    (fun p => match lookup (file_name p) configs with
              | Some y => Returned y
              | None => Raised not_found
              end)
    (fun _ => Returned tt)
    (fun _ => Returned tt).

(** A document whose root is not opml, one without feeds, one without body. *)
Definition doc_rss : Element :=
  Elem "rss" [("version", "2.0")] None None
    [Elem "channel" [] None None [feed "r1" "http://r/1"]].
Definition doc_no_feeds : Element :=
  opml_document "N" [group "Empty" []; Elem "outline" [("type", "link")] None None []].
Definition doc_no_body : Element :=
  Elem "opml" [("version", "2.0")] None None
    [Elem "head" [] None None [Elem "title" [] (Some "NB") None []];
     feed "n1" "http://n/1"].

(** The tech bundle as it is written. *)
Definition tech_written : Element :=
  indent (opml_document "Tech"
            [group "News" [feed "a1" "http://a/1"; feed "a2" "http://a/2"];
             feed "a3" "http://a/3";
             feed "b1" "http://b/1";
             feed "b2" "http://b/2"]).

Definition library_world : World :=
  world_of
    [("a.opml.xml", Returned doc_a); ("b.opml.xml", Returned doc_b);
     ("rss.xml", Returned doc_rss); ("none.opml.xml", Returned doc_no_feeds);
     ("nobody.opml.xml", Returned doc_no_body);
     ("broken.opml.xml", Raised mismatched);
     ("tech.opml.xml", Returned tech_written)]
    [("tech.yaml", YMapping tech_config);
     ("mixed.yaml", YMapping mixed_config);
     ("empty.yaml", YNone)].

(** ** The driver: [build_all_bundles] and [main] *)

(** The storage at one moment: what [World] answers, and the listing of a
    directory by a pattern, [list(p.glob(pattern))]. *)
Record Storage : Type := mkStorage {
  files : World;
  glob : Path -> string -> list Path
}.

(** The lines [build_all_bundles] and [main] print, one constructor per
    line; [Rule] is the line of sixty equal signs. *)
Inductive line : Type :=
| Rule
| Title
| Validating
| NoOpmlFiles
| Invalid (opml_file : Path) (error_msg : string)
| ValidationFailed
| AllValid (n : nat)
| BundlesDirMissing (p : Path)
| NoBundleConfigs (p : Path)
| BuildingAll (n : nat)
| SomeBundlesFailed
| AllBundlesBuilt
| OutputDirectory (p : Path)
| Completed.

(** A step of the driver: a line of its own, or an event of the validator
    or of a build. *)
Inductive step : Type :=
| Say (l : line)
| Did (ev : event).

(** The events among the steps of a run. *)
Fixpoint events_of (t : list step) : list event :=
  match t with
  | [] => []
  | Did ev :: rest => ev :: events_of rest
  | Say _ :: rest => events_of rest
  end.

(** The documents reported invalid among the steps of a run. *)
Fixpoint invalid_lines (t : list step) : list (Path * string) :=
  match t with
  | [] => []
  | Say (Invalid p msg) :: rest => (p, msg) :: invalid_lines rest
  | _ :: rest => invalid_lines rest
  end.

(** The verdict of the validator on a document. *)
Definition verdict (w : World) (p : Path) : bool * string :=
  match result (validate_opml w p) with
  | Returned v => v
  | Raised _ => (false, "")
  end.

(** The command line: the two flags. *)
Record Args : Type := mkArgs {
  validate_only : bool;
  build_only : bool
}.

Section Driver.

Variable serialize : Element -> string.

(** The storage after the script created a directory, and after it wrote a
    file. *)
Variable made : Storage -> Path -> Storage.
Variable written : Storage -> Path -> string -> Storage.

Definition effect (st : Storage) (ev : event) : Storage :=
  match ev with
  | Stdout _ => st
  | Mkdir p => made st p
  | WriteFile p data => written st p data
  end.

Definition settle (st : Storage) (t : list event) : Storage :=
  fold_left effect t st.

(** A computation of the driver: from the storage it starts in to its
    steps, the storage it leaves and what it returns or raises. *)
Definition prog (A : Type) : Type :=
  Storage -> list step * Storage * outcome A.

Definition pret {A} (a : A) : prog A := fun st => ([], st, Returned a).

Definition pbind {A B} (c : prog A) (k : A -> prog B) : prog B :=
  fun st =>
    match c st with
    | (t, st', Returned a) =>
        match k a st' with
        | (t', st'', r) => (t ++ t', st'', r)
        end
    | (t, st', Raised e) => (t, st', Raised e)
    end.

Definition say (l : line) : prog unit := fun st => ([Say l], st, Returned tt).

(** Reading the storage. *)
Definition ask {A} (f : Storage -> A) : prog A :=
  fun st => ([], st, Returned (f st)).

(** Running the validator or a build against the storage as it is now. *)
Definition perform {A} (c : World -> run A) : prog A :=
  fun st =>
    match c (files st) with
    | (t, r) => (map Did t, settle st t, r)
    end.

Notation "x <~ c ;; k" := (pbind c (fun x => k))
  (at level 61, c at next level, right associativity).
Notation "c ~;; k" := (pbind c (fun _ => k))
  (at level 61, right associativity).

(** The [for config_file in bundle_configs] loop of [build_all_bundles]. *)
Fixpoint build_each (self : BundleBuilder) (bundle_configs : list Path)
    (success : bool) : prog bool :=
  match bundle_configs with
  | [] => pret success
  | config_file :: rest =>
      built <~ perform (fun w => build_bundle w serialize self config_file) ;;
      build_each self rest (if negb built then false else success)
  end.

(** [build_all_bundles()]. *)
Definition build_all_bundles (self : BundleBuilder) : prog bool :=
  dir_exists <~ ask (fun st => path_exists (files st) (bundles_dir self)) ;;
  if negb dir_exists then
    say (BundlesDirMissing (bundles_dir self)) ~;;
    pret false
  else
    bundle_configs <~ ask (fun st => glob st (bundles_dir self) "*.yaml") ;;
    match bundle_configs with
    | [] =>
        say (NoBundleConfigs (bundles_dir self)) ~;;
        pret false
    | _ :: _ =>
        say (BuildingAll (length bundle_configs)) ~;;
        build_each self bundle_configs true
    end.

(** The [for opml_file in opml_files] loop of [main]. *)
Fixpoint validate_each (opml_files : list Path) (all_valid : bool)
  : prog bool :=
  match opml_files with
  | [] => pret all_valid
  | opml_file :: rest =>
      checked <~ perform (fun w => validate_opml w opml_file) ;;
      if negb (fst checked) then
        say (Invalid opml_file (snd checked)) ~;;
        validate_each rest false
      else validate_each rest all_valid
  end.

(** The validation phase of [main]: whether [main] goes on, and otherwise
    returns 1. *)
Definition validation_phase (args : Args) (base_dir : Path) : prog bool :=
  if negb (build_only args) then
    say Validating ~;;
    opml_files <~ ask (fun st => glob st base_dir "*.opml.xml") ;;
    match opml_files with
    | [] =>
        say NoOpmlFiles ~;;
        pret false
    | _ :: _ =>
        all_valid <~ validate_each opml_files true ;;
        if negb all_valid then
          say ValidationFailed ~;;
          pret false
        else
          say (AllValid (length opml_files)) ~;;
          pret true
    end
  else pret true.

(** The build phase of [main]: whether [main] goes on, and otherwise
    returns 1. *)
Definition build_phase (args : Args) (base_dir : Path) : prog bool :=
  if negb (validate_only args) then
    let builder := BundleBuilder_init base_dir in
    built <~ build_all_bundles builder ;;
    if negb built then
      say SomeBundlesFailed ~;;
      pret false
    else
      say AllBundlesBuilt ~;;
      say (OutputDirectory (output_dir builder)) ~;;
      pret true
  else pret true.

(** [main()], given the parsed arguments and the base directory; the
    number returned is the exit status. *)
Definition main (args : Args) (base_dir : Path) : prog nat :=
  say Rule ~;; say Title ~;; say Rule ~;;
  validated <~ validation_phase args base_dir ;;
  if negb validated then pret 1
  else
    built <~ build_phase args base_dir ;;
    if negb built then pret 1
    else
      say Rule ~;; say Completed ~;; say Rule ~;;
      pret 0.

End Driver.

(** Whether the documents listed under a directory pass the validation
    phase: there is at least one and each is valid. *)
Definition documents_pass (st : Storage) (base_dir : Path) : bool :=
  match glob st base_dir "*.opml.xml" with
  | [] => false
  | opml_files => forallb (fun p => fst (verdict (files st) p)) opml_files
  end.

(** The invalid documents, each with the reason the validator gives. *)
Definition invalid_documents (st : Storage) (base_dir : Path)
  : list (Path * string) :=
  map (fun p => (p, snd (verdict (files st) p)))
      (filter (fun p => negb (fst (verdict (files st) p)))
              (glob st base_dir "*.opml.xml")).

(** A storage for the driver: the bundles directory exists, beside the
    sample documents and configurations. *)
Definition driver_world : World :=
  world_of
    [("bundles", Raised is_a_directory);
     ("a.opml.xml", Returned doc_a); ("b.opml.xml", Returned doc_b);
     ("none.opml.xml", Returned doc_no_feeds);
     ("broken.opml.xml", Raised mismatched)]
    [("tech.yaml", YMapping tech_config);
     ("mixed.yaml", YMapping mixed_config);
     ("empty.yaml", YNone)].

(** The storage that lists the given documents and configurations. *)
Definition storage_of (documents configurations : list Path) : Storage :=
  mkStorage driver_world
    (fun _ pattern =>
       if String.eqb pattern "*.opml.xml" then documents
       else if String.eqb pattern "*.yaml" then configurations
       else []).

(** A storage whose answers a new directory or file does not change. *)
Definition after_mkdir (st : Storage) (p : Path) : Storage := st.
Definition after_write (st : Storage) (p : Path) (data : string) : Storage :=
  st.

Definition good_storage : Storage :=
  storage_of [Join repo "a.opml.xml"; Join repo "b.opml.xml"]
             [config_path "tech.yaml"; config_path "mixed.yaml"].

Definition flawed_storage : Storage :=
  storage_of [Join repo "broken.opml.xml"; Join repo "a.opml.xml";
              Join repo "none.opml.xml"]
             [config_path "tech.yaml"].

Definition half_built_storage : Storage :=
  storage_of [Join repo "a.opml.xml"]
             [config_path "empty.yaml"; config_path "tech.yaml"].

(** * Properties *)

(** ** Lists and element trees *)

Lemma Element_nested_ind (P : Element -> Prop) :
  (forall tg at_ tx tl cs, Forall P cs -> P (Elem tg at_ tx tl cs)) ->
  forall e, P e.
Proof.
  intros step. fix IH 1. intros [tg at_ tx tl cs].
  apply step. induction cs as [|c cs IHcs]; constructor.
  - apply IH.
  - exact IHcs.
Qed.

(** The feeds found from a bundle document are those of its entries. *)
Lemma findall_rss_bundle_document name entries :
  findall_rss (bundle_document name entries) =
  filter is_rss_outline (flat_map iter entries).
Proof.
  unfold findall_rss, descendants. simpl.
  now rewrite app_nil_r.
Qed.

(** ** [ET.indent] keeps the shape of a tree *)

Lemma shape_set_tail e x : shape (set_tail e x) = shape e.
Proof. now destruct e. Qed.

Lemma map_shape_dedent_last ind cs :
  map shape (dedent_last ind cs) = map shape cs.
Proof.
  induction cs as [|c cs IH]; [reflexivity|].
  destruct cs as [|c' cs'].
  - simpl. destruct (blank (tail c)); [now rewrite shape_set_tail|reflexivity].
  - change (dedent_last ind (c :: c' :: cs'))
      with (c :: dedent_last ind (c' :: cs')).
    rewrite map_cons, IH. reflexivity.
Qed.

Lemma shape_indent_children e :
  forall level, shape (indent_children level e) = shape e.
Proof.
  induction e as [tg at_ tx tl cs IH] using Element_nested_ind.
  intros level. simpl. f_equal.
  rewrite map_shape_dedent_last, map_map.
  apply map_ext_Forall.
  eapply Forall_impl; [|exact IH].
  intros c Hc. simpl.
  assert (Hc' : shape (match children c with
                       | [] => c
                       | _ :: _ => indent_children (S level) c
                       end) = shape c).
  { destruct (children c); [reflexivity|apply Hc]. }
  destruct (blank _); [rewrite shape_set_tail|]; exact Hc'.
Qed.

Lemma shape_indent e : shape (indent e) = shape e.
Proof.
  unfold indent. destruct (children e); [reflexivity|].
  apply shape_indent_children.
Qed.

Lemma is_rss_outline_shape e : is_rss_outline (shape e) = is_rss_outline e.
Proof. now destruct e. Qed.

Lemma iter_shape e : iter (shape e) = map shape (iter e).
Proof.
  induction e as [tg at_ tx tl cs IH] using Element_nested_ind.
  simpl. f_equal.
  induction IH as [|c cs Hc _ IHcs]; simpl; [reflexivity|].
  now rewrite map_app, Hc, IHcs.
Qed.

Lemma length_filter_shape l :
  length (filter is_rss_outline (map shape l)) =
  length (filter is_rss_outline l).
Proof.
  induction l as [|e l IH]; simpl; [reflexivity|].
  rewrite is_rss_outline_shape.
  destruct (is_rss_outline e); simpl; now rewrite IH.
Qed.

Lemma feed_count_shape e :
  length (findall_rss (shape e)) = length (findall_rss e).
Proof.
  destruct e as [tg at_ tx tl cs].
  unfold findall_rss, descendants. simpl.
  rewrite <- (length_filter_shape (flat_map iter cs)).
  f_equal. f_equal.
  induction cs as [|c cs IH]; simpl; [reflexivity|].
  now rewrite map_app, iter_shape, IH.
Qed.

(** Indentation does not change the number of feeds found. *)
Lemma feed_count_indent e :
  length (findall_rss (indent e)) = length (findall_rss e).
Proof.
  rewrite <- (feed_count_shape (indent e)), shape_indent.
  apply feed_count_shape.
Qed.

(** ** The merge loop *)

Section Merge.

Variable w : World.
Variable self : BundleBuilder.

(** When every existence check returns, the loop returns the body it was
    given followed by the body children of the loaded sources, and prints
    the warnings. *)
Lemma merge_sources_run source_files :
  checks_return w self source_files ->
  forall body,
    merge_sources w self source_files body =
    (flat_map (source_warning w self) source_files,
     Returned (body ++
               flat_map body_children (loaded_roots w self source_files))).
Proof.
  induction source_files as [|s rest IH]; intros Hchecks body.
  - simpl. unfold ret. now rewrite app_nil_r.
  - assert (Hrest : checks_return w self rest)
      by (intros s' Hs'; apply Hchecks; now right).
    specialize (IH Hrest).
    simpl. unfold check_exists. rewrite (Hchecks s (or_introl eq_refl)).
    unfold source_warning at 1. unfold loaded at 1.
    destruct (path_exists w (Join (base_dir self) s)); simpl.
    + destruct (ET_parse w (Join (base_dir self) s)) as [root|e]; simpl.
      * unfold body_children at 1.
        destruct (find root "body") as [b|]; simpl;
          rewrite IH; simpl; [now rewrite app_assoc | reflexivity].
      * rewrite IH. reflexivity.
    + rewrite IH. reflexivity.
Qed.

(** The first existence check that raises ends the loop: the warnings of
    the sources before it are printed, and the error leaves the loop. *)
Lemma merge_sources_aborts l1 s l2 e :
  checks_return w self l1 ->
  exists_raises w (Join (base_dir self) s) = Some e ->
  forall body,
    merge_sources w self (l1 ++ s :: l2) body =
    (flat_map (source_warning w self) l1, Raised e).
Proof.
  intros Hchecks Hraise.
  induction l1 as [|s1 rest IH]; intros body.
  - simpl. unfold check_exists. now rewrite Hraise.
  - assert (Hrest : checks_return w self rest)
      by (intros s' Hs'; apply Hchecks; now right).
    specialize (IH Hrest).
    simpl. unfold check_exists. rewrite (Hchecks s1 (or_introl eq_refl)).
    unfold source_warning at 1.
    destruct (path_exists w (Join (base_dir self) s1)); simpl.
    + destruct (ET_parse w (Join (base_dir self) s1)) as [root|e1]; simpl.
      * destruct (find root "body") as [b|]; simpl; now rewrite IH.
      * now rewrite IH.
    + now rewrite IH.
Qed.

(** Either every check returns, or there is a first one that raises. *)
Lemma checks_return_or_raise source_files :
  checks_return w self source_files \/
  exists l1 s l2 e,
    source_files = l1 ++ s :: l2 /\
    checks_return w self l1 /\
    exists_raises w (Join (base_dir self) s) = Some e.
Proof.
  induction source_files as [|s rest IH].
  - left. intros s [].
  - destruct (exists_raises w (Join (base_dir self) s)) as [e|] eqn:Hs.
    + right. exists [], s, rest, e. repeat split; [intros s' []|exact Hs].
    + destruct IH as [Hrest|[l1 [s' [l2 [e (-> & Hl1 & Hs')]]]]].
      * left. intros s' [<-|Hin]; [exact Hs|now apply Hrest].
      * right. exists (s :: l1), s', l2, e. repeat split; [|exact Hs'].
        intros x [<-|Hin]; [exact Hs|now apply Hl1].
Qed.

Lemma merge_opml_files_run source_files bundle_name bundle_desc :
  checks_return w self source_files ->
  merge_opml_files w self source_files bundle_name bundle_desc =
  (flat_map (source_warning w self) source_files,
   Returned (bundle_document bundle_name
               (flat_map body_children (loaded_roots w self source_files)))).
Proof.
  intros Hchecks.
  unfold merge_opml_files. rewrite (merge_sources_run _ Hchecks). simpl.
  now rewrite app_nil_r.
Qed.

Lemma merge_opml_files_aborts l1 s l2 e bundle_name bundle_desc :
  checks_return w self l1 ->
  exists_raises w (Join (base_dir self) s) = Some e ->
  merge_opml_files w self (l1 ++ s :: l2) bundle_name bundle_desc =
  (flat_map (source_warning w self) l1, Raised e).
Proof.
  intros Hchecks Hraise.
  unfold merge_opml_files.
  now rewrite (merge_sources_aborts l1 s l2 e Hchecks Hraise).
Qed.

(** A merge that returns has had every check return. *)
Lemma merge_returns_checks source_files bundle_name bundle_desc t doc :
  merge_opml_files w self source_files bundle_name bundle_desc =
    (t, Returned doc) ->
  checks_return w self source_files.
Proof.
  intros Hrun.
  destruct (checks_return_or_raise source_files)
    as [Hall|[l1 [s [l2 [e (-> & Hl1 & Hs)]]]]]; [exact Hall|].
  rewrite (merge_opml_files_aborts l1 s l2 e _ _ Hl1 Hs) in Hrun.
  discriminate Hrun.
Qed.

(** The feeds under the merged body, source by source. *)
Lemma feeds_of_loaded_roots source_files :
  length (filter is_rss_outline
            (flat_map iter
               (flat_map body_children (loaded_roots w self source_files)))) =
  list_sum (map (source_feeds w self) (filter (is_loaded w self) source_files)).
Proof.
  induction source_files as [|s rest IH]; [reflexivity|].
  simpl. unfold is_loaded at 1.
  destruct (loaded w self s) as [root|] eqn:Hl; simpl; [|exact IH].
  unfold source_feeds at 1.
  rewrite Hl, flat_map_app, filter_app, length_app, IH.
  f_equal. unfold body_children, body_feeds.
  destruct (find root "body"); reflexivity.
Qed.

(** A source that is not loaded contributes no feed. *)
Lemma source_feeds_not_loaded s :
  is_loaded w self s = false -> source_feeds w self s = 0.
Proof.
  unfold is_loaded, source_feeds. now destruct (loaded w self s).
Qed.

(** When no source exists, nothing is loaded. *)
Lemma loaded_roots_all_missing source_files :
  (forall s, In s source_files ->
             path_exists w (Join (base_dir self) s) = false) ->
  loaded_roots w self source_files = [] /\
  flat_map (source_warning w self) source_files =
  map (fun s => Stdout (WarnNotFound s)) source_files.
Proof.
  induction source_files as [|s rest IH]; intros Hm; [now split|].
  destruct IH as [IH1 IH2]; [intros s' Hs'; apply Hm; now right|].
  simpl. unfold loaded, source_warning at 1.
  rewrite (Hm s (or_introl eq_refl)). simpl. now rewrite IH1, IH2.
Qed.

End Merge.

(** ** A build whose configuration is a mapping *)

Section Build.

Variable w : World.
Variable serialize : Element -> string.
Variable self : BundleBuilder.

(** What a build does once its configuration is a mapping and every
    existence check returns: the result depends on the output directory and
    file alone. *)
Lemma build_bundle_mapping config_file m :
  yaml_safe_load w config_file = Returned (YMapping m) ->
  checks_return w self (sources_of m) ->
  build_bundle w serialize self config_file =
  ([Stdout (Building (name_of m)); Stdout (OutputLine (output_of m));
    Stdout (SourcesLine (length (sources_of m)))]
   ++ flat_map (source_warning w self) (sources_of m)
   ++ match mkdir_exist_ok w (output_dir self) with
      | Raised e => [Stdout (BuildFailed (exn_msg e))]
      | Returned _ =>
          Mkdir (output_dir self) ::
          match open_wb w (Join (output_dir self) (output_of m)) with
          | Raised e => [Stdout (BuildFailed (exn_msg e))]
          | Returned _ =>
              [WriteFile (Join (output_dir self) (output_of m))
                         (serialize (indent (merged_document w self m)));
               Stdout (Created
                         (length (findall_rss
                                    (indent (merged_document w self m)))))]
          end
      end,
   Returned (succeeds (mkdir_exist_ok w (output_dir self)) &&
             succeeds (open_wb w (Join (output_dir self) (output_of m))))).
Proof.
  intros Hload Hchecks.
  unfold build_bundle, load_bundle_config, read_fields, config_get.
  rewrite Hload. simpl.
  fold (name_of m) (output_of m) (sources_of m) (description_of m).
  rewrite (merge_opml_files_run w self _ _ _ Hchecks). simpl.
  destruct (mkdir_exist_ok w (output_dir self)) as [[]|e]; simpl;
    [|now rewrite app_nil_r].
  destruct (open_wb w (Join (output_dir self) (output_of m))) as [[]|e];
    simpl; rewrite ?app_nil_r, <- ?app_assoc; reflexivity.
Qed.

(** What a build does when the existence check of a source raises: the
    merge is left, the failure is printed and the build returns false;
    the output directory is not created and nothing is written. *)
Lemma build_bundle_aborted config_file m l1 s l2 e :
  yaml_safe_load w config_file = Returned (YMapping m) ->
  sources_of m = l1 ++ s :: l2 ->
  checks_return w self l1 ->
  exists_raises w (Join (base_dir self) s) = Some e ->
  build_bundle w serialize self config_file =
  ([Stdout (Building (name_of m)); Stdout (OutputLine (output_of m));
    Stdout (SourcesLine (length (sources_of m)))]
   ++ flat_map (source_warning w self) l1
   ++ [Stdout (BuildFailed (exn_msg e))],
   Returned false).
Proof.
  intros Hload Hsplit Hchecks Hraise.
  unfold build_bundle, load_bundle_config, read_fields, config_get.
  rewrite Hload. simpl.
  fold (name_of m) (output_of m) (sources_of m) (description_of m).
  assert (Hmerge :
    merge_opml_files w self (sources_of m) (name_of m) (description_of m) =
    (flat_map (source_warning w self) l1, Raised e))
    by (rewrite Hsplit; now apply merge_opml_files_aborts).
  rewrite Hmerge. simpl. reflexivity.
Qed.

Lemma build_bundle_run config_file m :
  yaml_safe_load w config_file = Returned (YMapping m) ->
  checks_return w self (sources_of m) ->
  mkdir_exist_ok w (output_dir self) = Returned tt ->
  open_wb w (Join (output_dir self) (output_of m)) = Returned tt ->
  build_bundle w serialize self config_file =
  ([Stdout (Building (name_of m)); Stdout (OutputLine (output_of m));
    Stdout (SourcesLine (length (sources_of m)))]
   ++ flat_map (source_warning w self) (sources_of m)
   ++ [Mkdir (output_dir self);
       WriteFile (Join (output_dir self) (output_of m))
                 (serialize (indent (merged_document w self m)));
       Stdout (Created (length (findall_rss (indent (merged_document w self m)))))],
   Returned true).
Proof.
  intros Hload Hchecks Hmkdir Hopen.
  rewrite (build_bundle_mapping config_file m Hload Hchecks), Hmkdir, Hopen.
  reflexivity.
Qed.

End Build.

(** ** The merged bundle: feed count and order *)

Lemma warning_of_failed_source w self source_files s e :
  In s source_files ->
  path_exists w (Join (base_dir self) s) = true ->
  ET_parse w (Join (base_dir self) s) = Raised e ->
  In (Stdout (WarnFailed s (exn_msg e)))
     (flat_map (source_warning w self) source_files).
Proof.
  intros Hin Hex Hparse. apply in_flat_map. exists s. split; [exact Hin|].
  unfold source_warning. rewrite Hex, Hparse. now left.
Qed.

Lemma failed_source_not_loaded w self s e :
  path_exists w (Join (base_dir self) s) = true ->
  ET_parse w (Join (base_dir self) s) = Raised e ->
  is_loaded w self s = false.
Proof.
  intros Hex Hparse. unfold is_loaded, loaded. now rewrite Hex, Hparse.
Qed.

Lemma merged_feed_count w self m :
  length (findall_rss (merged_document w self m)) =
  list_sum (map (source_feeds w self)
                (filter (is_loaded w self) (sources_of m))).
Proof.
  unfold merged_document. rewrite findall_rss_bundle_document.
  apply feeds_of_loaded_roots.
Qed.

(** When every existence check returns, the merged document holds as many
    feeds as the sources that exist and parse hold under their bodies,
    summed over exactly those sources, and this is the number a build
    reports once the file is written.  A source whose parse raises
    contributes no feed and gets a warning line, and the build goes on:
    whether it returns true then depends on the output directory and file
    alone. *)
Lemma bundle_feed_count_is_sum_of_sources
    w serialize self config_file m :
  yaml_safe_load w config_file = Returned (YMapping m) ->
  checks_return w self (sources_of m) ->
  merge_opml_files w self (sources_of m) (name_of m) (description_of m) =
    (flat_map (source_warning w self) (sources_of m),
     Returned (merged_document w self m)) /\
  length (findall_rss (merged_document w self m)) =
    list_sum (map (source_feeds w self)
                  (filter (is_loaded w self) (sources_of m))) /\
  (forall s e,
      In s (sources_of m) ->
      path_exists w (Join (base_dir self) s) = true ->
      ET_parse w (Join (base_dir self) s) = Raised e ->
      is_loaded w self s = false /\
      source_feeds w self s = 0 /\
      In (Stdout (WarnFailed s (exn_msg e)))
         (trace (build_bundle w serialize self config_file))) /\
  result (build_bundle w serialize self config_file) =
    Returned (succeeds (mkdir_exist_ok w (output_dir self)) &&
              succeeds (open_wb w (Join (output_dir self) (output_of m)))) /\
  (result (build_bundle w serialize self config_file) = Returned true ->
   In (Stdout (Created
                 (list_sum (map (source_feeds w self)
                                (filter (is_loaded w self) (sources_of m))))))
      (trace (build_bundle w serialize self config_file))).
Proof.
  intros Hload Hchecks.
  rewrite (build_bundle_mapping w serialize self config_file m Hload Hchecks).
  unfold trace, result. cbn [fst snd].
  split; [now apply merge_opml_files_run|].
  split; [apply merged_feed_count|].
  split; [|split; [reflexivity|]].
  - intros s e Hin Hex Hparse.
    pose proof (failed_source_not_loaded w self s e Hex Hparse) as Hnl.
    split; [exact Hnl|]. split; [now apply source_feeds_not_loaded|].
    apply in_or_app. right. apply in_or_app. left.
    now apply warning_of_failed_source.
  - intros Hok.
    destruct (mkdir_exist_ok w (output_dir self)) as [u|e1];
      [|discriminate Hok].
    destruct (open_wb w (Join (output_dir self) (output_of m))) as [u'|e2];
      [|discriminate Hok].
    rewrite feed_count_indent, merged_feed_count.
    apply in_or_app. right. apply in_or_app. right.
    simpl. right. right. now left.
Qed.

(** C1 fails at a source whose existence check raises.  The mapping lists
    a name that is too long between two documents; the check of that name
    raises before the [try] is entered, so no warning is printed for it,
    the merge is left, and the build prints the failure and returns false
    without writing anything: the source does abort the build. *)
Theorem build_aborted_by_source_check :
  yaml_safe_load sample_world (config_path "long.yaml") =
    Returned (YMapping long_config) /\
  sources_of long_config = ["a.opml.xml"; long_source; "b.opml.xml"] /\
  check_exists sample_world (Join repo long_source) = Raised name_too_long /\
  build_bundle sample_world write_xml builder (config_path "long.yaml") =
    ([Stdout (Building "Long");
      Stdout (OutputLine "long.opml.xml");
      Stdout (SourcesLine 3);
      Stdout (BuildFailed "[Errno 36] File name too long")],
     Returned false).
Proof. repeat split; reflexivity. Qed.

(** The children of the merged body when every check returns. *)
Lemma merged_body_when_checks_return
    w self source_files bundle_name bundle_desc :
  checks_return w self source_files ->
  exists t doc body,
    merge_opml_files w self source_files bundle_name bundle_desc =
      (t, Returned doc) /\
    find doc "body" = Some body /\
    children body =
      flat_map body_children (loaded_roots w self source_files).
Proof.
  intros Hchecks. rewrite (merge_opml_files_run w self _ _ _ Hchecks).
  eexists. eexists. eexists.
  split; [reflexivity|]. split; reflexivity.
Qed.

(** C2: the children of the merged body are the direct children of the
    body of every source that exists and parses, source after source in the
    order of the list, each source's children in their document order, every
    child the subtree it was.  This holds of every merge that returns, and
    the merge returns whenever the existence check of every source does. *)
Theorem merged_body_is_concatenation_of_source_bodies
    w self source_files bundle_name bundle_desc :
  (forall t doc,
      merge_opml_files w self source_files bundle_name bundle_desc =
        (t, Returned doc) ->
      exists body,
        find doc "body" = Some body /\
        children body =
          flat_map body_children (loaded_roots w self source_files)) /\
  (checks_return w self source_files ->
   exists t doc body,
     merge_opml_files w self source_files bundle_name bundle_desc =
       (t, Returned doc) /\
     find doc "body" = Some body /\
     children body =
       flat_map body_children (loaded_roots w self source_files)).
Proof.
  split.
  - intros t doc Hrun.
    pose proof (merge_returns_checks w self _ _ _ t doc Hrun) as Hchecks.
    destruct (merged_body_when_checks_return
                w self source_files bundle_name bundle_desc Hchecks)
      as [t' [doc' [body (Hrun' & Hfind & Hkids)]]].
    rewrite Hrun in Hrun'. injection Hrun' as _ <-.
    now exists body.
  - apply merged_body_when_checks_return.
Qed.

(** ** The validator *)

(** The feeds under a child are among the feeds under its parent. *)
Lemma feeds_of_child_le root name c :
  find root name = Some c ->
  length (findall_rss c) <= length (findall_rss root).
Proof.
  unfold find. intros Hf. apply find_some in Hf. destruct Hf as [Hin _].
  apply in_split in Hin. destruct Hin as [l1 [l2 Hcs]].
  unfold findall_rss at 2. unfold descendants. rewrite Hcs.
  rewrite flat_map_app, filter_app, length_app. simpl flat_map.
  rewrite filter_app, length_app.
  destruct c as [tg at_ tx tl cs]. unfold findall_rss, descendants. simpl.
  destruct (is_rss_outline (Elem tg at_ tx tl cs)); simpl; lia.
Qed.

Lemma validate_opml_parsed w file_path root :
  ET_parse w file_path = Returned root ->
  validate_opml w file_path =
  if negb (String.eqb (tag root) "opml") then
    ([], Returned (false, ("Root element is '" ++ tag root ++
                           "', expected 'opml'")%string))
  else
    match find root "head", find root "body" with
    | None, _ => ([], Returned (false, "Missing required <head> element"))
    | Some _, None => ([], Returned (false, "Missing required <body> element"))
    | Some _, Some _ =>
        if Nat.eqb (length (findall_rss root)) 0
        then ([], Returned (false, "No RSS feeds found in file"))
        else ([Stdout (ValidReport file_path (length (findall_rss root)))],
              Returned (true, ""))
    end.
Proof.
  intros Hparse. unfold validate_opml. rewrite Hparse. simpl.
  destruct (negb (String.eqb (tag root) "opml")); [reflexivity|].
  destruct (find root "head"); [|reflexivity].
  destruct (find root "body"); [|reflexivity].
  destruct (Nat.eqb (length (findall_rss root)) 0); reflexivity.
Qed.

Lemma validate_opml_raised w file_path e :
  ET_parse w file_path = Raised e ->
  validate_opml w file_path =
  ([], Returned (false,
                 match exn_class e with
                 | ParseError => ("XML parsing error: " ++ exn_msg e)%string
                 | _ => ("Unexpected error: " ++ exn_msg e)%string
                 end)).
Proof.
  intros Hparse. unfold validate_opml. rewrite Hparse. simpl.
  destruct (exn_class e); reflexivity.
Qed.

(** C3, as the code has it: for every document with root tag opml, a head
    and a body child and at least one outline of type rss below its root,
    validation returns (true, "") and the count it reports is the number of
    outlines of type rss at any depth below the root, in the whole document;
    the feeds under the body are among them. *)
Theorem validate_reports_feeds_of_whole_document w file_path root :
  ET_parse w file_path = Returned root ->
  tag root = "opml" ->
  find root "head" <> None ->
  find root "body" <> None ->
  0 < length (findall_rss root) ->
  validate_opml w file_path =
    ([Stdout (ValidReport file_path (length (findall_rss root)))],
     Returned (true, "")) /\
  (forall body, find root "body" = Some body ->
                length (findall_rss body) <= length (findall_rss root)).
Proof.
  intros Hparse Htag Hhead Hbody Hfeeds. split.
  - rewrite (validate_opml_parsed w file_path root Hparse), Htag. simpl.
    destruct (find root "head"); [|contradiction].
    destruct (find root "body"); [|contradiction].
    destruct (length (findall_rss root)); [lia|reflexivity].
  - intros body Hb. exact (feeds_of_child_le root "body" body Hb).
Qed.

(** C4, as the code has it: for every document with root tag opml and no
    body child, validation returns false; the reason is the missing body
    when a head child is present, whatever else the document holds, and the
    missing head when the head is absent too, since the head is checked
    first. *)
Theorem validate_without_body w file_path root :
  ET_parse w file_path = Returned root ->
  tag root = "opml" ->
  find root "body" = None ->
  validate_opml w file_path =
    ([], Returned (false,
                   match find root "head" with
                   | Some _ => "Missing required <body> element"
                   | None => "Missing required <head> element"
                   end)).
Proof.
  intros Hparse Htag Hbody.
  rewrite (validate_opml_parsed w file_path root Hparse), Htag, Hbody. simpl.
  destruct (find root "head"); reflexivity.
Qed.

(** C9: validation never raises.  Whatever the storage and the parser
    answer it returns a pair; when parsing raises a parse error the pair is
    false with the parse diagnostic after "XML parsing error: ", and when
    anything else is raised it is false with the exception's message after
    "Unexpected error: ". *)
Theorem validate_never_raises w file_path :
  (exists t valid reason,
      validate_opml w file_path = (t, Returned (valid, reason))) /\
  (forall e,
      ET_parse w file_path = Raised e ->
      exn_class e = ParseError ->
      validate_opml w file_path =
        ([], Returned (false, ("XML parsing error: " ++ exn_msg e)%string))) /\
  (forall e,
      ET_parse w file_path = Raised e ->
      exn_class e <> ParseError ->
      validate_opml w file_path =
        ([], Returned (false, ("Unexpected error: " ++ exn_msg e)%string))).
Proof.
  split; [|split].
  - destruct (ET_parse w file_path) as [root|e] eqn:Hparse.
    + rewrite (validate_opml_parsed w file_path root Hparse).
      destruct (negb (String.eqb (tag root) "opml")); [now eauto|].
      destruct (find root "head"); [|now eauto].
      destruct (find root "body"); [|now eauto].
      destruct (Nat.eqb (length (findall_rss root)) 0); now eauto.
    + rewrite (validate_opml_raised w file_path e Hparse). now eauto.
  - intros e Hparse Hclass.
    now rewrite (validate_opml_raised w file_path e Hparse), Hclass.
  - intros e Hparse Hclass.
    rewrite (validate_opml_raised w file_path e Hparse).
    destruct (exn_class e); try reflexivity. now contradiction Hclass.
Qed.

(** ** Builds: missing sources, description, defaults *)

Lemma indent_empty_bundle name :
  indent (bundle_document name []) = empty_bundle_indented name.
Proof. reflexivity. Qed.

Lemma check_exists_false w p :
  check_exists w p = Returned false ->
  exists_raises w p = None /\ path_exists w p = false.
Proof.
  unfold check_exists. destruct (exists_raises w p); [discriminate|].
  intros H. injection H as ->. now split.
Qed.

(** C5, as the code has it: when the existence check reports every source
    of a mapping missing, the merge warns once per source and gives the
    document with root opml of version 2.0, a head whose title is the
    bundle name and a body without children.  When the output directory
    can be created and the output file opened, the build writes that
    document, reports 0 feeds and returns true; when either of the two
    raises, the build prints the failure and returns false. *)
Theorem build_with_all_sources_missing w serialize self config_file m :
  yaml_safe_load w config_file = Returned (YMapping m) ->
  (forall s, In s (sources_of m) ->
             check_exists w (Join (base_dir self) s) = Returned false) ->
  let written := empty_bundle_indented (name_of m) in
  merge_opml_files w self (sources_of m) (name_of m) (description_of m) =
    (map (fun s => Stdout (WarnNotFound s)) (sources_of m),
     Returned (bundle_document (name_of m) [])) /\
  (mkdir_exist_ok w (output_dir self) = Returned tt ->
   open_wb w (Join (output_dir self) (output_of m)) = Returned tt ->
   build_bundle w serialize self config_file =
     ([Stdout (Building (name_of m)); Stdout (OutputLine (output_of m));
       Stdout (SourcesLine (length (sources_of m)))]
      ++ map (fun s => Stdout (WarnNotFound s)) (sources_of m)
      ++ [Mkdir (output_dir self);
          WriteFile (Join (output_dir self) (output_of m)) (serialize written);
          Stdout (Created 0)],
      Returned true)) /\
  result (build_bundle w serialize self config_file) =
    Returned (succeeds (mkdir_exist_ok w (output_dir self)) &&
              succeeds (open_wb w (Join (output_dir self) (output_of m)))) /\
  (succeeds (mkdir_exist_ok w (output_dir self)) &&
   succeeds (open_wb w (Join (output_dir self) (output_of m))) = false ->
   result (build_bundle w serialize self config_file) = Returned false /\
   exists err,
     In (Stdout (BuildFailed err))
        (trace (build_bundle w serialize self config_file))) /\
  indent (bundle_document (name_of m) []) = written /\
  tag written = "opml" /\
  get (attrib written) "version" = Some "2.0" /\
  (exists head title,
      find written "head" = Some head /\
      find head "title" = Some title /\
      text title = Some (name_of m)) /\
  (exists body, find written "body" = Some body /\ children body = []) /\
  length (findall_rss written) = 0.
Proof.
  intros Hload Hmissing written.
  assert (Hchecks : checks_return w self (sources_of m))
    by (intros s Hs; now destruct (check_exists_false _ _ (Hmissing s Hs))).
  assert (Hgone : forall s, In s (sources_of m) ->
                            path_exists w (Join (base_dir self) s) = false)
    by (intros s Hs; now destruct (check_exists_false _ _ (Hmissing s Hs))).
  destruct (loaded_roots_all_missing w self (sources_of m) Hgone)
    as [Hroots Hwarn].
  split; [|split; [|split; [|split]]].
  - rewrite (merge_opml_files_run w self _ _ _ Hchecks).
    now rewrite Hroots, Hwarn.
  - intros Hmkdir Hopen.
    rewrite (build_bundle_run w serialize self config_file m
               Hload Hchecks Hmkdir Hopen).
    unfold merged_document. rewrite Hroots, Hwarn. simpl flat_map.
    rewrite indent_empty_bundle. reflexivity.
  - now rewrite (build_bundle_mapping w serialize self config_file m
                   Hload Hchecks).
  - intros Hfail.
    rewrite (build_bundle_mapping w serialize self config_file m
               Hload Hchecks).
    unfold result, trace. cbn [fst snd]. split; [now rewrite Hfail|].
    destruct (mkdir_exist_ok w (output_dir self)) as [u|e1].
    + destruct (open_wb w (Join (output_dir self) (output_of m)))
        as [u'|e2]; [discriminate Hfail|].
      exists (exn_msg e2). apply in_or_app. right. apply in_or_app. right.
      simpl. right. now left.
    + exists (exn_msg e1). apply in_or_app. right. apply in_or_app. right.
      now left.
  - split; [reflexivity|]. split; [reflexivity|]. split; [reflexivity|].
    split; [eexists; eexists; repeat split; reflexivity|].
    split; [eexists; split; reflexivity|reflexivity].
Qed.

(** C6: the description of a mapping is read and handed to the merge, and
    nothing of it reaches the outside: a build prints and writes the same,
    byte for byte, whatever the description is or whether it is there. *)
Theorem description_is_not_written w serialize self config_file m d :
  read_fields (YMapping (set_description (Some d) m)) =
    ret (name_of m, d, output_of m, sources_of m) /\
  (forall source_files bundle_name d1 d2,
      merge_opml_files w self source_files bundle_name d1 =
      merge_opml_files w self source_files bundle_name d2) /\
  (forall d',
      build_bundle (with_config w (Returned (YMapping (set_description d' m))))
                   serialize self config_file =
      build_bundle (with_config w (Returned (YMapping m)))
                   serialize self config_file).
Proof.
  split; [reflexivity|]. split; [reflexivity|].
  intros d'. reflexivity.
Qed.

(** C7: read from a mapping, a field that is absent takes its default:
    the name "Unnamed Bundle", the description the empty string, the output
    "bundle.opml.xml" and the sources the empty list; a field that is
    present keeps its value.  Built from the mapping without any field, the
    bundle is the empty bundle under these defaults. *)
Theorem absent_fields_take_defaults
    (name description output : option string)
    (sources : option (list string)) :
  read_fields (YMapping (mkMapping name description output sources)) =
    ret (match name with Some v => v | None => "Unnamed Bundle" end,
         match description with Some v => v | None => "" end,
         match output with Some v => v | None => "bundle.opml.xml" end,
         match sources with Some v => v | None => [] end) /\
  (forall w serialize self config_file,
      build_bundle
        (mkWorld (path_exists w) (exists_raises w) (ET_parse w)
                 (fun _ => Returned (YMapping (mkMapping None None None None)))
                 (fun _ => Returned tt) (fun _ => Returned tt))
        serialize self config_file =
      ([Stdout (Building "Unnamed Bundle");
        Stdout (OutputLine "bundle.opml.xml");
        Stdout (SourcesLine 0);
        Mkdir (output_dir self);
        WriteFile (Join (output_dir self) "bundle.opml.xml")
                  (serialize (empty_bundle_indented "Unnamed Bundle"));
        Stdout (Created 0)],
       Returned true)).
Proof. split; reflexivity. Qed.

Lemma file_writes_app t1 t2 :
  file_writes (t1 ++ t2) = file_writes t1 ++ file_writes t2.
Proof.
  induction t1 as [|ev t1 IH]; [reflexivity|].
  destruct ev; simpl; now rewrite IH.
Qed.

Lemma file_writes_warnings w self source_files :
  file_writes (flat_map (source_warning w self) source_files) = [].
Proof.
  induction source_files as [|s rest IH]; [reflexivity|].
  simpl. rewrite file_writes_app, IH, app_nil_r.
  unfold source_warning.
  destruct (path_exists w (Join (base_dir self) s)); [|reflexivity].
  destruct (ET_parse w (Join (base_dir self) s)); reflexivity.
Qed.

(** C10: when the configuration file loads to something that is not a
    mapping (an empty file loads to None), the lookup of the first field
    raises, the build prints the failure and returns false, and neither the
    output directory nor any file is written. *)
Theorem build_fails_on_non_mapping w serialize self config_file config :
  yaml_safe_load w config_file = Returned config ->
  (forall m, config <> YMapping m) ->
  build_bundle w serialize self config_file =
    ([Stdout (BuildFailed ("'" ++ type_name config ++
                           "' object has no attribute 'get'")%string)],
     Returned false) /\
  filter touches_storage (trace (build_bundle w serialize self config_file)) = [].
Proof.
  intros Hload Hnot.
  assert (Hrun : build_bundle w serialize self config_file =
    ([Stdout (BuildFailed ("'" ++ type_name config ++
                           "' object has no attribute 'get'")%string)],
     Returned false)).
  { unfold build_bundle, load_bundle_config. rewrite Hload.
    destruct config as [| b | n | s | l | m]; try reflexivity.
    now contradiction (Hnot m). }
  split; [exact Hrun|]. now rewrite Hrun.
Qed.

(** ** The properties on the sample storage *)

(** A fact about every source of a list written out, source by source. *)
Ltac each_source :=
  let s := fresh "s" in
  let Hs := fresh "Hs" in
  intros s Hs; simpl in Hs;
  repeat (destruct Hs as [<-|Hs]; [try split; reflexivity|]);
  destruct Hs.

Lemma bundle_feed_count_on_mixed_sources :
  yaml_safe_load sample_world (config_path "mixed.yaml") =
    Returned (YMapping mixed_config) /\
  length (findall_rss (merged_document sample_world builder mixed_config)) =
    3 + 2 /\
  source_feeds sample_world builder "broken.opml.xml" = 0 /\
  In (Stdout (WarnFailed "broken.opml.xml" (exn_msg mismatched)))
     (trace (build_bundle sample_world write_xml builder
                          (config_path "mixed.yaml"))) /\
  In (Stdout (Created 5))
     (trace (build_bundle sample_world write_xml builder
                          (config_path "mixed.yaml"))) /\
  result (build_bundle sample_world write_xml builder
                       (config_path "mixed.yaml")) = Returned true.
Proof.
  assert (Hchecks : checks_return sample_world builder
                                  (sources_of mixed_config))
    by each_source.
  destruct (bundle_feed_count_is_sum_of_sources
              sample_world write_xml builder (config_path "mixed.yaml")
              mixed_config eq_refl Hchecks)
    as (_ & Hcount & Hfailed & Hresult & Hreport).
  destruct (Hfailed "broken.opml.xml" mismatched
              (or_intror (or_intror (or_introl eq_refl))) eq_refl eq_refl)
    as (_ & Hzero & Hwarn).
  split; [reflexivity|]. split; [exact Hcount|]. split; [exact Hzero|].
  split; [exact Hwarn|]. split; [exact (Hreport Hresult)|exact Hresult].
Defined.

Lemma validate_reports_two_feeds_of_stray_document :
  ET_parse sample_world (Join repo "stray.opml.xml") = Returned doc_stray /\
  0 < length (findall_rss doc_stray) /\
  validate_opml sample_world (Join repo "stray.opml.xml") =
    ([Stdout (ValidReport (Join repo "stray.opml.xml") 2)],
     Returned (true, "")).
Proof.
  split; [reflexivity|]. split; [simpl; lia|].
  apply (validate_reports_feeds_of_whole_document
           sample_world (Join repo "stray.opml.xml") doc_stray).
  - reflexivity.
  - reflexivity.
  - discriminate.
  - discriminate.
  - simpl. lia.
Defined.

(** C3, as stated, fails on a document that holds a feed outside its body:
    the document is valid, one feed lies under its body, and validation
    reports two. *)
Lemma validate_counts_feeds_outside_body :
  ET_parse sample_world (Join repo "stray.opml.xml") = Returned doc_stray /\
  tag doc_stray = "opml" /\
  find doc_stray "head" <> None /\
  (exists body,
      find doc_stray "body" = Some body /\
      length (findall_rss body) = 1) /\
  validate_opml sample_world (Join repo "stray.opml.xml") =
    ([Stdout (ValidReport (Join repo "stray.opml.xml") 2)],
     Returned (true, "")) /\
  2 <> 1.
Proof.
  split; [reflexivity|]. split; [reflexivity|]. split; [discriminate|].
  split; [eexists; split; reflexivity|]. split; [reflexivity|discriminate].
Qed.

Lemma validate_head_only_document :
  ET_parse sample_world (Join repo "head.opml.xml") = Returned doc_head_only /\
  find doc_head_only "body" = None /\
  validate_opml sample_world (Join repo "head.opml.xml") =
    ([], Returned (false, "Missing required <body> element")).
Proof.
  split; [reflexivity|]. split; [reflexivity|].
  apply (validate_without_body
           sample_world (Join repo "head.opml.xml") doc_head_only);
    reflexivity.
Defined.

(** C4, as stated, fails on a root without children: it has no body, and
    the reason validation gives is the missing head, not the missing body. *)
Lemma validate_bare_root_reports_missing_head :
  ET_parse sample_world (Join repo "bare.opml.xml") = Returned doc_bare /\
  tag doc_bare = "opml" /\
  find doc_bare "body" = None /\
  validate_opml sample_world (Join repo "bare.opml.xml") =
    ([], Returned (false, "Missing required <head> element")) /\
  "Missing required <head> element" <> "Missing required <body> element".
Proof.
  repeat split; try reflexivity. discriminate.
Qed.

Lemma build_with_missing_sources_on_sample :
  yaml_safe_load sample_world (config_path "missing.yaml") =
    Returned (YMapping missing_config) /\
  check_exists sample_world (Join repo "x.opml.xml") = Returned false /\
  check_exists sample_world (Join repo "y.opml.xml") = Returned false /\
  build_bundle sample_world write_xml builder (config_path "missing.yaml") =
    ([Stdout (Building "Unnamed Bundle");
      Stdout (OutputLine "bundle.opml.xml");
      Stdout (SourcesLine 2);
      Stdout (WarnNotFound "x.opml.xml");
      Stdout (WarnNotFound "y.opml.xml");
      Mkdir (Join repo "dist");
      WriteFile (Join (Join repo "dist") "bundle.opml.xml")
                (write_xml (empty_bundle_indented "Unnamed Bundle"));
      Stdout (Created 0)],
     Returned true) /\
  result (build_bundle sample_world write_xml builder
                       (config_path "nameless.yaml")) = Returned false.
Proof.
  split; [reflexivity|]. split; [reflexivity|]. split; [reflexivity|]. split.
  - refine (proj1 (proj2 (build_with_all_sources_missing
                            sample_world write_xml builder
                            (config_path "missing.yaml")
                            missing_config eq_refl _))
              eq_refl eq_refl).
    each_source.
  - refine (proj1 (proj1 (proj2 (proj2 (proj2
              (build_with_all_sources_missing
                 sample_world write_xml builder (config_path "nameless.yaml")
                 nameless_config eq_refl _)))) eq_refl)).
    each_source.
Defined.

(** C5, as stated, fails for a mapping whose output name is empty: its
    sources are all missing, the output path is the output directory
    itself, opening it raises, and the build returns false. *)
Lemma build_with_missing_sources_and_empty_output :
  yaml_safe_load sample_world (config_path "nameless.yaml") =
    Returned (YMapping nameless_config) /\
  check_exists sample_world (Join repo "x.opml.xml") = Returned false /\
  check_exists sample_world (Join repo "y.opml.xml") = Returned false /\
  build_bundle sample_world write_xml builder (config_path "nameless.yaml") =
    ([Stdout (Building "Nameless");
      Stdout (OutputLine "");
      Stdout (SourcesLine 2);
      Stdout (WarnNotFound "x.opml.xml");
      Stdout (WarnNotFound "y.opml.xml");
      Mkdir (Join repo "dist");
      Stdout (BuildFailed "[Errno 21] Is a directory")],
     Returned false).
Proof. repeat split; reflexivity. Qed.

Lemma validate_does_not_raise_on_sample :
  validate_opml sample_world (Join repo "broken.opml.xml") =
    ([], Returned (false,
                   "XML parsing error: mismatched tag: line 3, column 2")) /\
  validate_opml sample_world (Join repo "nope.opml.xml") =
    ([], Returned (false,
                   "Unexpected error: [Errno 2] No such file or directory")).
Proof.
  split.
  - apply (proj1 (proj2 (validate_never_raises
                           sample_world (Join repo "broken.opml.xml")))
             mismatched); reflexivity.
  - apply (proj2 (proj2 (validate_never_raises
                           sample_world (Join repo "nope.opml.xml")))
             not_found); [reflexivity|discriminate].
Defined.

Lemma build_fails_on_empty_configuration :
  yaml_safe_load sample_world (config_path "empty.yaml") = Returned YNone /\
  build_bundle sample_world write_xml builder (config_path "empty.yaml") =
    ([Stdout (BuildFailed "'NoneType' object has no attribute 'get'")],
     Returned false).
Proof.
  split; [reflexivity|].
  refine (proj1 (build_fails_on_non_mapping
                   sample_world write_xml builder (config_path "empty.yaml")
                   YNone eq_refl _)).
  intros m. discriminate.
Defined.

(** The example of the specification: a bundle of a document with three
    feeds and one with two has five. *)
Example tech_bundle :
  build_bundle sample_world write_xml builder (config_path "tech.yaml") =
    ([Stdout (Building "Tech");
      Stdout (OutputLine "tech.opml.xml");
      Stdout (SourcesLine 2);
      Mkdir (Join repo "dist");
      WriteFile (Join (Join repo "dist") "tech.opml.xml")
        (write_xml
           (indent (opml_document "Tech"
                      [group "News" [feed "a1" "http://a/1";
                                     feed "a2" "http://a/2"];
                       feed "a3" "http://a/3";
                       feed "b1" "http://b/1";
                       feed "b2" "http://b/2"])));
      Stdout (Created 5)],
     Returned true).
Proof. reflexivity. Qed.

(** A storage that refuses the output file fails the build. *)
Example read_only_build :
  build_bundle read_only_world write_xml builder (config_path "tech.yaml") =
    ([Stdout (Building "Tech");
      Stdout (OutputLine "tech.opml.xml");
      Stdout (SourcesLine 2);
      Mkdir (Join repo "dist");
      Stdout (BuildFailed "[Errno 30] Read-only file system")],
     Returned false).
Proof. reflexivity. Qed.

(** * Further properties of the validator *)

(** X1: a document whose root tag is not opml is rejected with a reason
    that names the tag found, whatever the document holds. *)
Theorem validate_rejects_other_root w file_path root :
  ET_parse w file_path = Returned root ->
  tag root <> "opml" ->
  validate_opml w file_path =
    ([], Returned (false, ("Root element is '" ++ tag root ++
                           "', expected 'opml'")%string)).
Proof.
  intros Hparse Htag.
  rewrite (validate_opml_parsed w file_path root Hparse).
  apply String.eqb_neq in Htag. now rewrite Htag.
Qed.

(** X2: validation accepts exactly the documents that parse, have root
    opml, a head child, a body child and at least one outline of type rss
    below the root; the reason is empty exactly when the document is
    accepted, and a line is printed exactly then. *)
Theorem validate_accepts_exactly w file_path t valid reason :
  validate_opml w file_path = (t, Returned (valid, reason)) ->
  (valid = true <->
   exists root,
     ET_parse w file_path = Returned root /\
     tag root = "opml" /\
     find root "head" <> None /\
     find root "body" <> None /\
     0 < length (findall_rss root)) /\
  (valid = true <-> reason = "") /\
  (valid = false <-> t = []).
Proof.
  destruct (ET_parse w file_path) as [root|e] eqn:Hparse.
  - rewrite (validate_opml_parsed w file_path root Hparse).
    destruct (String.eqb (tag root) "opml") eqn:Htag; simpl.
    + apply String.eqb_eq in Htag.
      destruct (find root "head") as [h|] eqn:Hh.
      * destruct (find root "body") as [b|] eqn:Hb.
        -- destruct (length (findall_rss root)) as [|n] eqn:Hn; simpl;
             intros H; injection H as <- <- <-.
           ++ split; [|split]; split; try discriminate; try reflexivity.
              intros [r (Hr & _ & _ & _ & Hpos)].
              injection Hr as <-. rewrite Hn in Hpos. lia.
           ++ split; [|split]; split; try discriminate; try reflexivity.
              intros _. exists root. rewrite Hh, Hb, Hn.
              repeat split; try discriminate; [exact Htag|lia].
        -- intros H; injection H as <- <- <-.
           split; [|split]; split; try discriminate; try reflexivity.
           intros [r (Hr & _ & _ & Hnb & _)].
           injection Hr as <-. now rewrite Hb in Hnb.
      * intros H; injection H as <- <- <-.
        split; [|split]; split; try discriminate; try reflexivity.
        intros [r (Hr & _ & Hnh & _)].
        injection Hr as <-. now rewrite Hh in Hnh.
    + intros H; injection H as <- <- <-.
      split; [|split]; split; try discriminate; try reflexivity.
      intros [r (Hr & Hopml & _)].
      injection Hr as <-. apply String.eqb_neq in Htag. contradiction.
  - rewrite (validate_opml_raised w file_path e Hparse).
    intros H; injection H as <- <- <-.
    split; [|split]; split; try discriminate; try reflexivity.
    + intros [r (Hr & _)]. discriminate Hr.
    + destruct (exn_class e); discriminate.
Qed.

(** X3: a document with root opml, a head and a body in which no outline
    of type rss occurs at any depth is rejected as holding no feed, and
    nothing is printed. *)
Theorem validate_rejects_document_without_feeds w file_path root :
  ET_parse w file_path = Returned root ->
  tag root = "opml" ->
  find root "head" <> None ->
  find root "body" <> None ->
  findall_rss root = [] ->
  validate_opml w file_path =
    ([], Returned (false, "No RSS feeds found in file")).
Proof.
  intros Hparse Htag Hh Hb Hnone.
  rewrite (validate_opml_parsed w file_path root Hparse), Htag, Hnone. simpl.
  destruct (find root "head"); [|contradiction].
  destruct (find root "body"); [|contradiction].
  reflexivity.
Qed.

(** X4: the feed count of an element is the count over its children, each
    child counting for itself when it is an outline of type rss and for the
    feeds below it: feeds are found at any depth, groups do not hide them. *)
Theorem feed_count_by_children e :
  length (findall_rss e) =
  list_sum (map (fun c => (if is_rss_outline c then 1 else 0) +
                          length (findall_rss c))
                (children e)).
Proof.
  unfold findall_rss at 1. unfold descendants.
  induction (children e) as [|c cs IH]; [reflexivity|].
  simpl flat_map. rewrite filter_app, length_app, IH. simpl map. simpl list_sum.
  f_equal. destruct c as [tg at_ tx tl ccs].
  unfold findall_rss, descendants. simpl.
  destruct (is_rss_outline (Elem tg at_ tx tl ccs)); reflexivity.
Qed.

(** * Further properties of the indentation *)

Lemma indent_children_eq level tg at_ tx tl cs :
  indent_children level (Elem tg at_ tx tl cs) =
  Elem tg at_ (if blank tx then Some (indentation (S level)) else tx) tl
       (dedent_last (indentation level) (map (indent_child level) cs)).
Proof. reflexivity. Qed.

Lemma all_space_spaces n : all_space (spaces n) = true.
Proof. induction n as [|n IH]; [reflexivity|]. simpl. exact IH. Qed.

Lemma all_space_indentation n : all_space (indentation n) = true.
Proof. unfold indentation. simpl. apply all_space_spaces. Qed.

Lemma blank_indentation n : blank (Some (indentation n)) = true.
Proof. apply all_space_indentation. Qed.

Lemma tail_set_tail e x : tail (set_tail e x) = x.
Proof. now destruct e. Qed.

Lemma children_set_tail e x : children (set_tail e x) = children e.
Proof. now destruct e. Qed.

Lemma set_tail_set_tail e x y : set_tail (set_tail e x) y = set_tail e y.
Proof. now destruct e. Qed.

Lemma tail_indent_children level e : tail (indent_children level e) = tail e.
Proof. now destruct e. Qed.

Lemma indent_children_set_tail level e x :
  indent_children level (set_tail e x) = set_tail (indent_children level e) x.
Proof. now destruct e. Qed.

Lemma dedent_last_nil ind cs : dedent_last ind cs = [] -> cs = [].
Proof.
  destruct cs as [|c [|c' cs]]; [reflexivity| |]; discriminate.
Qed.

Lemma children_indent_children_nil level e :
  children (indent_children level e) = [] -> children e = [].
Proof.
  destruct e as [tg at_ tx tl cs]. rewrite indent_children_eq. simpl.
  intros H. apply dedent_last_nil in H. now destruct cs.
Qed.

(** The dedented tail is blank, so a child is indented the same before and
    after the dedent. *)
Lemma indent_child_set_blank_tail level x s :
  blank (tail x) = true ->
  all_space s = true ->
  indent_child level (set_tail x (Some s)) = indent_child level x.
Proof.
  intros Hx Hs. unfold indent_child.
  rewrite children_set_tail.
  destruct (children x).
  - rewrite tail_set_tail, Hx. simpl. rewrite Hs.
    now rewrite set_tail_set_tail.
  - rewrite indent_children_set_tail, tail_set_tail, tail_indent_children, Hx.
    simpl. rewrite Hs. now rewrite set_tail_set_tail.
Qed.

Lemma map_indent_child_dedent_last level ind cs :
  all_space ind = true ->
  map (indent_child level) (dedent_last ind cs) = map (indent_child level) cs.
Proof.
  intros Hind. induction cs as [|c cs IH]; [reflexivity|].
  destruct cs as [|c' cs'].
  - simpl. destruct (blank (tail c)) eqn:Hc; [|reflexivity].
    now rewrite (indent_child_set_blank_tail level c ind Hc Hind).
  - change (dedent_last ind (c :: c' :: cs'))
      with (c :: dedent_last ind (c' :: cs')).
    rewrite !map_cons, IH. reflexivity.
Qed.

Lemma indent_child_twice level c :
  (forall l, indent_children l (indent_children l c) = indent_children l c) ->
  indent_child level (indent_child level c) = indent_child level c.
Proof.
  intros IH. unfold indent_child at 2 3.
  destruct (children c) as [|c0 cs0] eqn:Hcs.
  - destruct (blank (tail c)) eqn:Hb.
    + rewrite (indent_child_set_blank_tail level c _ Hb
                 (all_space_indentation _)).
      unfold indent_child. now rewrite Hcs, Hb.
    + unfold indent_child. now rewrite Hcs, Hb.
  - rewrite tail_indent_children.
    assert (Hne : children (indent_children (S level) c) <> []).
    { intros H. apply children_indent_children_nil in H.
      rewrite Hcs in H. discriminate. }
    assert (Hstep : indent_child level (indent_children (S level) c) =
                    if blank (tail c)
                    then set_tail (indent_children (S level) c)
                                  (Some (indentation (S level)))
                    else indent_children (S level) c).
    { unfold indent_child.
      destruct (children (indent_children (S level) c)); [contradiction|].
      now rewrite IH, tail_indent_children. }
    destruct (blank (tail c)) eqn:Hb; [|exact Hstep].
    rewrite indent_child_set_blank_tail;
      [exact Hstep| |apply all_space_indentation].
    now rewrite tail_indent_children.
Qed.

Lemma indent_children_twice e :
  forall level,
    indent_children level (indent_children level e) = indent_children level e.
Proof.
  induction e as [tg at_ tx tl cs IH] using Element_nested_ind.
  intros level. rewrite !indent_children_eq. f_equal.
  - destruct (blank tx) eqn:Hb; [now rewrite blank_indentation|now rewrite Hb].
  - rewrite (map_indent_child_dedent_last level (indentation level)
               _ (all_space_indentation level)).
    rewrite map_map. f_equal.
    apply map_ext_Forall. eapply Forall_impl; [|exact IH].
    intros c Hc. now apply indent_child_twice.
Qed.

(** Indenting a tree that is already indented changes nothing. *)
Lemma indent_is_idempotent e : indent (indent e) = indent e.
Proof.
  unfold indent. destruct (children e) as [|c cs] eqn:Hcs.
  - now rewrite Hcs.
  - destruct (children (indent_children 0 e)) eqn:Hic.
    + reflexivity.
    + apply indent_children_twice.
Qed.

Lemma kept_blank x : blank x = true -> kept x = None.
Proof. unfold kept. now intros ->. Qed.

Lemma below_set_blank_tail x s :
  blank (tail x) = true ->
  all_space s = true ->
  below (set_tail x (Some s)) = below x.
Proof.
  destruct x as [tg at_ tx tl cs]. simpl. intros Hx Hs.
  now rewrite (kept_blank tl Hx), (kept_blank (Some s) Hs).
Qed.

Lemma map_below_dedent_last ind cs :
  all_space ind = true ->
  map below (dedent_last ind cs) = map below cs.
Proof.
  intros Hind. induction cs as [|c cs IH]; [reflexivity|].
  destruct cs as [|c' cs'].
  - simpl. destruct (blank (tail c)) eqn:Hc; [|reflexivity].
    now rewrite (below_set_blank_tail c ind Hc Hind).
  - change (dedent_last ind (c :: c' :: cs'))
      with (c :: dedent_last ind (c' :: cs')).
    rewrite !map_cons, IH. reflexivity.
Qed.

Lemma below_indent_children e :
  children e <> [] ->
  forall level, below (indent_children level e) = below e.
Proof.
  induction e as [tg at_ tx tl cs IH] using Element_nested_ind.
  intros Hcs level. rewrite indent_children_eq. simpl in Hcs.
  assert (Hkids :
    map below (dedent_last (indentation level)
                           (map (indent_child level) cs)) = map below cs).
  { rewrite (map_below_dedent_last _ _ (all_space_indentation level)), map_map.
    apply map_ext_Forall. eapply Forall_impl; [|exact IH].
    intros c Hc. unfold indent_child.
    assert (Hc' : below (match children c with
                         | [] => c
                         | _ :: _ => indent_children (S level) c
                         end) = below c).
    { destruct (children c) eqn:Hk; [reflexivity|].
      apply Hc. rewrite Hk. discriminate. }
    destruct (blank _) eqn:Hb; [|exact Hc'].
    now rewrite (below_set_blank_tail _ _ Hb (all_space_indentation _)). }
  simpl. rewrite Hkids.
  destruct (dedent_last (indentation level) (map (indent_child level) cs))
    as [|d ds] eqn:Hd.
  - apply dedent_last_nil in Hd. destruct cs; [contradiction|discriminate].
  - destruct cs as [|c cs']; [contradiction|]. f_equal.
    destruct (blank tx) eqn:Hb; [|reflexivity].
    now rewrite (kept_blank tx Hb), (kept_blank _ (blank_indentation (S level))).
Qed.

Lemma tail_below_free e x : set_tail (below (set_tail e x)) (tail e) =
                            set_tail (below e) (tail e).
Proof. now destruct e. Qed.

(** Indentation touches blank space only: tags, attributes, the order and
    nesting of the elements, the text of every element without children,
    and every other text or tail that is not blank are the same before and
    after. *)
Lemma indent_changes_blank_space_only e :
  content (indent e) = content e.
Proof.
  unfold indent. destruct (children e) eqn:Hcs; [reflexivity|].
  unfold content.
  rewrite tail_indent_children, below_indent_children; [reflexivity|].
  rewrite Hcs. discriminate.
Qed.

(** * Further properties of the merge *)

Lemma loaded_roots_app w self l1 l2 :
  loaded_roots w self (l1 ++ l2) =
  loaded_roots w self l1 ++ loaded_roots w self l2.
Proof. unfold loaded_roots. apply flat_map_app. Qed.

Lemma checks_return_app w self l1 l2 :
  checks_return w self l1 -> checks_return w self l2 ->
  checks_return w self (l1 ++ l2).
Proof.
  intros H1 H2 s Hs. apply in_app_or in Hs.
  destruct Hs; [now apply H1|now apply H2].
Qed.

(** X6: merging a list of sources followed by another gives the entries of
    the first followed by the entries of the second, and the warnings of
    the first followed by those of the second: when the merge of each list
    returns, so does the merge of the two together, with that document. *)
Theorem merge_of_appended_sources
    w self l1 l2 bundle_name bundle_desc t1 t2 doc1 doc2 :
  merge_opml_files w self l1 bundle_name bundle_desc = (t1, Returned doc1) ->
  merge_opml_files w self l2 bundle_name bundle_desc = (t2, Returned doc2) ->
  merge_opml_files w self (l1 ++ l2) bundle_name bundle_desc =
    (t1 ++ t2,
     Returned (bundle_document bundle_name
                 (body_children doc1 ++ body_children doc2))).
Proof.
  intros H1 H2.
  pose proof (merge_returns_checks w self _ _ _ _ _ H1) as Hc1.
  pose proof (merge_returns_checks w self _ _ _ _ _ H2) as Hc2.
  rewrite (merge_opml_files_run w self _ _ _ Hc1) in H1.
  rewrite (merge_opml_files_run w self _ _ _ Hc2) in H2.
  injection H1 as <- <-. injection H2 as <- <-.
  rewrite (merge_opml_files_run w self _ _ _
             (checks_return_app w self l1 l2 Hc1 Hc2)).
  now rewrite !flat_map_app, loaded_roots_app, flat_map_app.
Qed.

Lemma source_warning_cases w self s :
  (is_loaded w self s = true /\ source_warning w self s = []) \/
  (is_loaded w self s = false /\
   (source_warning w self s = [Stdout (WarnNotFound s)] \/
    exists err, source_warning w self s = [Stdout (WarnFailed s err)])).
Proof.
  unfold is_loaded, loaded, source_warning.
  destruct (path_exists w (Join (base_dir self) s)).
  - destruct (ET_parse w (Join (base_dir self) s)) as [root|e].
    + left. now split.
    + right. split; [reflexivity|]. right. now exists (exn_msg e).
  - right. split; [reflexivity|]. now left.
Qed.

(** X7: a merge that returns has printed one warning for every source
    that is missing or fails to parse and nothing else: as many lines as
    there are such sources, each naming one of them. *)
Theorem merge_warns_once_per_skipped_source
    w self source_files bundle_name bundle_desc t doc :
  merge_opml_files w self source_files bundle_name bundle_desc =
    (t, Returned doc) ->
  length t =
    length (filter (fun s => negb (is_loaded w self s)) source_files) /\
  (forall ev,
      In ev t ->
      exists s,
        In s source_files /\ is_loaded w self s = false /\
        (ev = Stdout (WarnNotFound s) \/
         exists err, ev = Stdout (WarnFailed s err))).
Proof.
  intros Hrun.
  pose proof (merge_returns_checks w self _ _ _ _ _ Hrun) as Hchecks.
  rewrite (merge_opml_files_run w self _ _ _ Hchecks) in Hrun.
  injection Hrun as <- _. split.
  - clear Hchecks. induction source_files as [|s rest IH]; [reflexivity|].
    simpl. rewrite length_app, IH.
    destruct (source_warning_cases w self s) as [[Hl ->]|[Hl [->|[err ->]]]];
      rewrite Hl; reflexivity.
  - intros ev Hin. apply in_flat_map in Hin. destruct Hin as [s [Hs Hev]].
    exists s. split; [exact Hs|].
    destruct (source_warning_cases w self s) as [[Hl Hw]|[Hl [Hw|[err Hw]]]];
      rewrite Hw in Hev.
    + destruct Hev.
    + destruct Hev as [<-|[]]. split; [exact Hl|now left].
    + destruct Hev as [<-|[]]. split; [exact Hl|]. right. now exists err.
Qed.

Lemma check_exists_true w p :
  check_exists w p = Returned true ->
  exists_raises w p = None /\ path_exists w p = true.
Proof.
  unfold check_exists. destruct (exists_raises w p); [discriminate|].
  intros H. injection H as ->. now split.
Qed.

Lemma merge_sources_skips_bodyless w self s root :
  check_exists w (Join (base_dir self) s) = Returned true ->
  ET_parse w (Join (base_dir self) s) = Returned root ->
  find root "body" = None ->
  forall l1 l2 body,
    merge_sources w self (l1 ++ s :: l2) body =
    merge_sources w self (l1 ++ l2) body.
Proof.
  intros Hex Hparse Hbody.
  induction l1 as [|s1 rest IH]; intros l2 body.
  - simpl. rewrite Hex. simpl. rewrite Hparse. simpl. rewrite Hbody. simpl.
    now destruct (merge_sources w self l2 body).
  - simpl. destruct (check_exists w (Join (base_dir self) s1)) as [[]|e];
      simpl; [|now rewrite IH|reflexivity].
    destruct (ET_parse w (Join (base_dir self) s1)) as [r|e]; simpl.
    + destruct (find r "body"); simpl; now rewrite IH.
    + now rewrite IH.
Qed.

(** X8: a source that parses to a document without a body child is passed
    over in silence: the merge gives the same document and prints the same
    as if the source were not listed. *)
Theorem source_without_body_is_skipped_silently
    w self l1 s l2 bundle_name bundle_desc root :
  check_exists w (Join (base_dir self) s) = Returned true ->
  ET_parse w (Join (base_dir self) s) = Returned root ->
  find root "body" = None ->
  merge_opml_files w self (l1 ++ s :: l2) bundle_name bundle_desc =
  merge_opml_files w self (l1 ++ l2) bundle_name bundle_desc.
Proof.
  intros Hex Hparse Hbody. unfold merge_opml_files.
  now rewrite (merge_sources_skips_bodyless w self s root Hex Hparse Hbody).
Qed.

Lemma find_shape e name :
  find (shape e) name = option_map shape (find e name).
Proof.
  destruct e as [tg at_ tx tl cs]. unfold find. simpl.
  induction cs as [|c cs IH]; [reflexivity|].
  simpl. destruct c as [tg' at' tx' tl' cs']. simpl.
  destruct (String.eqb tg' name); [reflexivity|exact IH].
Qed.

Lemma find_indent_none e name :
  find (indent e) name = None <-> find e name = None.
Proof.
  pose proof (find_shape (indent e) name) as H1.
  pose proof (find_shape e name) as H2.
  rewrite shape_indent in H1. rewrite H1 in H2.
  destruct (find (indent e) name), (find e name); simpl in H2;
    split; intros H; try reflexivity; discriminate.
Qed.

Lemma find_merged_document w self m name :
  name = "head" \/ name = "body" ->
  find (merged_document w self m) name <> None.
Proof. intros [->| ->]; discriminate. Qed.

Lemma tag_indent e : tag (indent e) = tag e.
Proof.
  pose proof (shape_indent e) as H.
  destruct (indent e), e. simpl in *. now injection H.
Qed.

(** X9: a written bundle that is read back passes validation exactly
    when its sources contribute at least one feed, and is then reported
    with the sum of their feeds; a bundle without feeds is rejected as a
    document without feeds. *)
Theorem written_bundle_validates_iff_it_has_feeds w self m file_path :
  ET_parse w file_path = Returned (indent (merged_document w self m)) ->
  validate_opml w file_path =
    if Nat.eqb (list_sum (map (source_feeds w self)
                              (filter (is_loaded w self) (sources_of m)))) 0
    then ([], Returned (false, "No RSS feeds found in file"))
    else ([Stdout (ValidReport file_path
                     (list_sum (map (source_feeds w self)
                                    (filter (is_loaded w self)
                                            (sources_of m)))))],
          Returned (true, "")).
Proof.
  intros Hparse.
  rewrite (validate_opml_parsed w file_path _ Hparse).
  rewrite tag_indent, feed_count_indent, merged_feed_count. simpl negb.
  cbv iota.
  destruct (find (indent (merged_document w self m)) "head") eqn:Hh.
  - destruct (find (indent (merged_document w self m)) "body") eqn:Hb.
    + reflexivity.
    + apply (proj1 (find_indent_none _ _)) in Hb.
      now destruct (find_merged_document w self m "body" (or_intror eq_refl)).
  - apply (proj1 (find_indent_none _ _)) in Hh.
    now destruct (find_merged_document w self m "head" (or_introl eq_refl)).
Qed.

(** * Further properties of a build *)

Lemma failure_lines_warnings w self source_files :
  filter is_failure_line (flat_map (source_warning w self) source_files) = [].
Proof.
  induction source_files as [|s rest IH]; [reflexivity|].
  simpl. rewrite filter_app, IH, app_nil_r.
  destruct (source_warning_cases w self s) as [[_ ->]|[_ [->|[err ->]]]];
    reflexivity.
Qed.

Lemma created_lines_warnings w self source_files :
  filter is_created_line (flat_map (source_warning w self) source_files) = [].
Proof.
  induction source_files as [|s rest IH]; [reflexivity|].
  simpl. rewrite filter_app, IH, app_nil_r.
  destruct (source_warning_cases w self s) as [[_ ->]|[_ [->|[err ->]]]];
    reflexivity.
Qed.

(** A build that is not given a mapping fails on its first step. *)
Lemma build_bundle_not_mapping w serialize self config_file :
  (forall m, yaml_safe_load w config_file <> Returned (YMapping m)) ->
  exists err,
    build_bundle w serialize self config_file =
    ([Stdout (BuildFailed err)], Returned false).
Proof.
  intros Hnot. unfold build_bundle, load_bundle_config.
  destruct (yaml_safe_load w config_file) as [config|e].
  - destruct config as [| b | n | s | l | m];
      try (eexists; reflexivity).
    now contradiction (Hnot m).
  - eexists. reflexivity.
Qed.

(** What a build leaves behind: one written file, its closing line and no
    failure line when it returns true; one failure line and no closing line
    when it returns false.  It returns true exactly when it is given a
    mapping, every existence check returns, and the output directory and
    file can be written. *)
Lemma build_bundle_summary w serialize self config_file :
  exists ok,
    result (build_bundle w serialize self config_file) = Returned ok /\
    length (file_writes (trace (build_bundle w serialize self config_file))) =
      (if ok then 1 else 0) /\
    length (filter is_created_line
              (trace (build_bundle w serialize self config_file))) =
      (if ok then 1 else 0) /\
    length (filter is_failure_line
              (trace (build_bundle w serialize self config_file))) =
      (if ok then 0 else 1) /\
    (ok = true <->
     exists m,
       yaml_safe_load w config_file = Returned (YMapping m) /\
       checks_return w self (sources_of m) /\
       mkdir_exist_ok w (output_dir self) = Returned tt /\
       open_wb w (Join (output_dir self) (output_of m)) = Returned tt).
Proof.
  assert (Hnot : (forall m, yaml_safe_load w config_file <>
                            Returned (YMapping m)) ->
    exists ok,
      result (build_bundle w serialize self config_file) = Returned ok /\
      length (file_writes
                (trace (build_bundle w serialize self config_file))) =
        (if ok then 1 else 0) /\
      length (filter is_created_line
                (trace (build_bundle w serialize self config_file))) =
        (if ok then 1 else 0) /\
      length (filter is_failure_line
                (trace (build_bundle w serialize self config_file))) =
        (if ok then 0 else 1) /\
      (ok = true <->
       exists m,
         yaml_safe_load w config_file = Returned (YMapping m) /\
         checks_return w self (sources_of m) /\
         mkdir_exist_ok w (output_dir self) = Returned tt /\
         open_wb w (Join (output_dir self) (output_of m)) = Returned tt)).
  { intros Hno.
    destruct (build_bundle_not_mapping w serialize self config_file Hno)
      as [err ->].
    exists false. repeat split; try reflexivity; try discriminate.
    intros [m (Hm & _)]. now destruct (Hno m). }
  destruct (yaml_safe_load w config_file) as [config|e] eqn:Hload;
    [|apply Hnot; discriminate].
  destruct config as [| b | n | s | l | m];
    try (apply Hnot; discriminate).
  clear Hnot.
  destruct (checks_return_or_raise w self (sources_of m))
    as [Hchecks|[l1 [s [l2 [e (Hsplit & Hl1 & Hs)]]]]].
  - rewrite (build_bundle_mapping w serialize self config_file m
               Hload Hchecks).
    unfold trace, result. cbn [fst snd].
    rewrite !file_writes_app, !filter_app.
    rewrite file_writes_warnings, failure_lines_warnings,
      created_lines_warnings.
    destruct (mkdir_exist_ok w (output_dir self)) as [[]|e1] eqn:Hmkdir.
    + destruct (open_wb w (Join (output_dir self) (output_of m)))
        as [[]|e2] eqn:Hopen.
      * exists true. repeat split; try reflexivity.
        intros _. exists m. now rewrite Hopen.
      * exists false. repeat split; try reflexivity; try discriminate.
        intros [m' (Hm & _ & _ & Ho)]. injection Hm as <-.
        rewrite Hopen in Ho. discriminate Ho.
    + exists false. repeat split; try reflexivity; try discriminate.
      intros [m' (_ & _ & Hmk & _)]. discriminate Hmk.
  - rewrite (build_bundle_aborted w serialize self config_file m l1 s l2 e
               Hload Hsplit Hl1 Hs).
    unfold trace, result. cbn [fst snd].
    rewrite !file_writes_app, !filter_app.
    rewrite file_writes_warnings, failure_lines_warnings,
      created_lines_warnings.
    exists false. repeat split; try reflexivity; try discriminate.
    intros [m' (Hm & Hc & _)]. injection Hm as <-.
    assert (Hin : In s (sources_of m))
      by (rewrite Hsplit; apply in_or_app; right; now left).
    rewrite (Hc s Hin) in Hs. discriminate Hs.
Qed.

(** X10: a build returns true or false, and true exactly when the
    configuration loads to a mapping, the existence check of every listed
    source returns, the output directory can be created and the output file
    can be opened; a source that is missing or does not parse plays no part
    in the result. *)
Theorem build_succeeds_exactly_when w serialize self config_file :
  exists ok,
    result (build_bundle w serialize self config_file) = Returned ok /\
    (ok = true <->
     exists m,
       yaml_safe_load w config_file = Returned (YMapping m) /\
       checks_return w self (sources_of m) /\
       mkdir_exist_ok w (output_dir self) = Returned tt /\
       open_wb w (Join (output_dir self) (output_of m)) = Returned tt).
Proof.
  destruct (build_bundle_summary w serialize self config_file)
    as [ok (Hres & _ & _ & _ & Hiff)].
  now exists ok.
Qed.

(** X11: a build that returns true has written exactly one file and
    printed its closing line and no failure line; a build that returns
    false has printed exactly one failure line and no closing line. *)
Theorem build_writes_a_file_iff_it_succeeds w serialize self config_file :
  (result (build_bundle w serialize self config_file) = Returned true ->
   length (file_writes (trace (build_bundle w serialize self config_file))) = 1
   /\ length (filter is_created_line
                (trace (build_bundle w serialize self config_file))) = 1
   /\ filter is_failure_line
        (trace (build_bundle w serialize self config_file)) = []) /\
  (result (build_bundle w serialize self config_file) = Returned false ->
   length (filter is_failure_line
             (trace (build_bundle w serialize self config_file))) = 1 /\
   filter is_created_line
     (trace (build_bundle w serialize self config_file)) = []).
Proof.
  destruct (build_bundle_summary w serialize self config_file)
    as [ok (Hres & Hfiles & Hcreated & Hfail & _)].
  rewrite Hres. split; intros Hok; injection Hok as ->.
  - split; [exact Hfiles|]. split; [exact Hcreated|].
    now apply length_zero_iff_nil.
  - split; [exact Hfail|]. now apply length_zero_iff_nil.
Qed.

(** X5: the one file a build writes holds the merged document up to the
    blank space of its layout: the tree handed to the writer has the tags,
    attributes, nesting and order of the bundle document made of the body
    children of the loaded sources, the text of every element without
    children (the title among them), and every other text and tail that is
    not blank. *)
Theorem build_writes_the_merged_content w serialize self config_file m :
  yaml_safe_load w config_file = Returned (YMapping m) ->
  checks_return w self (sources_of m) ->
  mkdir_exist_ok w (output_dir self) = Returned tt ->
  open_wb w (Join (output_dir self) (output_of m)) = Returned tt ->
  exists tree,
    file_writes (trace (build_bundle w serialize self config_file)) =
      [(Join (output_dir self) (output_of m), serialize tree)] /\
    content tree =
      content
        (bundle_document (name_of m)
           (flat_map body_children (loaded_roots w self (sources_of m)))).
Proof.
  intros Hload Hchecks Hmkdir Hopen.
  exists (indent (merged_document w self m)). split.
  - rewrite (build_bundle_run w serialize self config_file m
               Hload Hchecks Hmkdir Hopen).
    unfold trace. cbn [fst].
    now rewrite !file_writes_app, file_writes_warnings.
  - apply indent_changes_blank_space_only.
Qed.

(** * Properties of the driver *)

Lemma events_of_app t1 t2 : events_of (t1 ++ t2) = events_of t1 ++ events_of t2.
Proof.
  induction t1 as [|s t1 IH]; [reflexivity|].
  destruct s; simpl; now rewrite IH.
Qed.

Lemma events_of_map_Did t : events_of (map Did t) = t.
Proof. induction t as [|ev t IH]; [reflexivity|]. simpl. now rewrite IH. Qed.

Lemma invalid_lines_app t1 t2 :
  invalid_lines (t1 ++ t2) = invalid_lines t1 ++ invalid_lines t2.
Proof.
  induction t1 as [|s t1 IH]; [reflexivity|].
  destruct s as [l|ev]; [destruct l|]; simpl; now rewrite IH.
Qed.

Lemma invalid_lines_map_Did t : invalid_lines (map Did t) = [].
Proof. induction t as [|ev t IH]; [reflexivity|exact IH]. Qed.

(** The validator prints at most its report and returns its verdict. *)
Lemma validate_opml_verdict w file_path :
  exists t,
    validate_opml w file_path = (t, Returned (verdict w file_path)) /\
    filter touches_storage t = [] /\
    filter is_failure_line t = [].
Proof.
  unfold verdict.
  destruct (ET_parse w file_path) as [root|e] eqn:Hparse.
  - rewrite (validate_opml_parsed w file_path root Hparse).
    destruct (negb (String.eqb (tag root) "opml")); [now eexists|].
    destruct (find root "head"); [|now eexists].
    destruct (find root "body"); [|now eexists].
    destruct (Nat.eqb (length (findall_rss root)) 0); now eexists.
  - rewrite (validate_opml_raised w file_path e Hparse). now eexists.
Qed.

Section DriverFacts.

Variable serialize : Element -> string.
Variable made : Storage -> Path -> Storage.
Variable written : Storage -> Path -> string -> Storage.

Lemma settle_without_effect st t :
  filter touches_storage t = [] -> settle made written st t = st.
Proof.
  revert st. induction t as [|ev t IH]; intros st Hnone; [reflexivity|].
  destruct ev as [m|p|p data]; simpl in Hnone; try discriminate Hnone.
  simpl. now apply IH.
Qed.

Lemma perform_validate st file_path :
  exists t,
    perform made written (fun w => validate_opml w file_path) st =
      (map Did t, st, Returned (verdict (files st) file_path)) /\
    filter touches_storage t = [] /\
    filter is_failure_line t = [].
Proof.
  destruct (validate_opml_verdict (files st) file_path)
    as [t (Hrun & Hnone & Hfail)].
  exists t. split; [|now split].
  unfold perform. rewrite Hrun.
  now rewrite (settle_without_effect st t Hnone).
Qed.

(** The validation loop looks at every document, reports each invalid one
    and leaves the storage as it is. *)
Lemma validate_each_run opml_files :
  forall all_valid st,
  exists t,
    validate_each made written opml_files all_valid st =
      (t, st,
       Returned (all_valid &&
                 forallb (fun p => fst (verdict (files st) p)) opml_files)) /\
    filter touches_storage (events_of t) = [] /\
    filter is_failure_line (events_of t) = [] /\
    invalid_lines t =
      map (fun p => (p, snd (verdict (files st) p)))
          (filter (fun p => negb (fst (verdict (files st) p))) opml_files).
Proof.
  induction opml_files as [|p rest IH]; intros all_valid st.
  - exists []. simpl. unfold pret. now rewrite andb_true_r.
  - destruct (perform_validate st p) as [tv (Hv & Hnone & Hfail)].
    simpl. unfold pbind at 1. rewrite Hv.
    destruct (fst (verdict (files st) p)) eqn:Hok; simpl.
    + destruct (IH all_valid st) as [t (Hrun & Hst & Hfl & Hinv)].
      rewrite Hrun. exists (map Did tv ++ t).
      split; [reflexivity|].
      rewrite events_of_app, events_of_map_Did, !filter_app, Hnone, Hst,
        Hfail, Hfl, invalid_lines_app, invalid_lines_map_Did.
      now repeat split.
    + destruct (IH false st) as [t (Hrun & Hst & Hfl & Hinv)].
      unfold pbind, say. rewrite Hrun.
      exists (map Did tv ++ Say (Invalid p (snd (verdict (files st) p))) :: t).
      rewrite andb_false_r. split; [reflexivity|].
      rewrite events_of_app, events_of_map_Did, !filter_app, Hnone, Hfail,
        invalid_lines_app, invalid_lines_map_Did.
      simpl. rewrite Hst, Hfl, Hinv. now repeat split.
Qed.

End DriverFacts.

Section DriverProperties.

Variable serialize : Element -> string.
Variable made : Storage -> Path -> Storage.
Variable written : Storage -> Path -> string -> Storage.

(** The build loop runs one build per configuration, whatever the earlier
    ones returned, and returns true when it was started with true and no
    build failed. *)
Lemma build_each_run self bundle_configs :
  forall success st,
  exists t st' ok,
    build_each serialize made written self bundle_configs success st =
      (t, st', Returned ok) /\
    ok = success &&
         Nat.eqb (length (filter is_failure_line (events_of t))) 0 /\
    length (file_writes (events_of t)) +
    length (filter is_failure_line (events_of t)) = length bundle_configs /\
    length (filter is_created_line (events_of t)) +
    length (filter is_failure_line (events_of t)) = length bundle_configs /\
    invalid_lines t = [].
Proof.
  induction bundle_configs as [|c rest IH]; intros success st.
  - exists [], st, success. simpl. unfold pret. now rewrite andb_true_r.
  - destruct (build_bundle_summary (files st) serialize self c)
      as [built (Hres & Hfiles & Hcreated & Hfail & _)].
    simpl. unfold pbind, perform.
    destruct (build_bundle (files st) serialize self c) as [tb rb].
    unfold result, trace in *. cbn [fst snd] in *. subst rb.
    destruct (IH (if negb built then false else success)
                 (settle made written st tb))
      as [t [st' [ok (Hrun & Hok & Hcount & Hdone & Hinv)]]].
    rewrite Hrun. exists (map Did tb ++ t), st', ok.
    split; [reflexivity|].
    rewrite events_of_app, events_of_map_Did, file_writes_app, !filter_app,
      !length_app, invalid_lines_app, invalid_lines_map_Did, Hfiles, Hfail,
      Hcreated.
    destruct built; simpl in *.
    + repeat split; [exact Hok|lia|lia|exact Hinv].
    + rewrite andb_false_r. repeat split; [exact Hok|lia|lia|exact Hinv].
Qed.

Lemma build_all_bundles_run self st :
  exists t st' ok,
    build_all_bundles serialize made written self st = (t, st', Returned ok) /\
    (ok = true <->
     path_exists (files st) (bundles_dir self) = true /\
     glob st (bundles_dir self) "*.yaml" <> [] /\
     filter is_failure_line (events_of t) = []) /\
    (path_exists (files st) (bundles_dir self) = true ->
     length (file_writes (events_of t)) +
     length (filter is_failure_line (events_of t)) =
     length (glob st (bundles_dir self) "*.yaml") /\
     length (filter is_created_line (events_of t)) +
     length (filter is_failure_line (events_of t)) =
     length (glob st (bundles_dir self) "*.yaml")) /\
    (path_exists (files st) (bundles_dir self) = false ->
     events_of t = [] /\ st' = st /\ ok = false) /\
    invalid_lines t = [].
Proof.
  unfold build_all_bundles, pbind, ask, say, pret.
  destruct (path_exists (files st) (bundles_dir self)); simpl.
  - destruct (glob st (bundles_dir self) "*.yaml") as [|c rest] eqn:Hglob.
    + do 3 eexists. split; [reflexivity|].
      split; [split; [discriminate|now intros (_ & Hne & _)]|].
      split; [now split|]. split; [discriminate|reflexivity].
    + destruct (build_each_run self (c :: rest) true st)
        as [t [st' [ok (Hrun & Hok & Hcount & Hdone & Hinv)]]].
      rewrite Hrun. do 3 eexists. split; [reflexivity|].
      cbn [events_of invalid_lines app]. rewrite Hok. simpl andb.
      rewrite Nat.eqb_eq, length_zero_iff_nil.
      split; [split; [intros H; repeat split; [discriminate|exact H]
                     |now intros (_ & _ & H)]|].
      split; [now intros _|]. split; [discriminate|exact Hinv].
  - do 3 eexists. split; [reflexivity|].
    split; [split; [discriminate|now intros (Hex & _)]|].
    split; [discriminate|]. split; [now repeat split|reflexivity].
Qed.

(** X12: [build_all_bundles] never raises, and it returns true exactly
    when the bundles directory exists, lists at least one configuration
    and no build printed a failure. *)
Theorem build_all_bundles_succeeds_iff_no_build_fails self st :
  exists t st' ok,
    build_all_bundles serialize made written self st = (t, st', Returned ok) /\
    (ok = true <->
     path_exists (files st) (bundles_dir self) = true /\
     glob st (bundles_dir self) "*.yaml" <> [] /\
     filter is_failure_line (events_of t) = []).
Proof.
  destruct (build_all_bundles_run self st) as [t [st' [ok (Hrun & Hok & _)]]].
  now exists t, st', ok.
Qed.

(** X13: when the bundles directory exists, every configuration it lists
    is built, whether or not an earlier one failed: the builds that went
    through and the builds that failed are together as many as the
    configurations.  Without the directory nothing is built and the storage
    is left as it was. *)
Theorem build_all_bundles_attempts_every_configuration self st :
  exists t st' ok,
    build_all_bundles serialize made written self st = (t, st', Returned ok) /\
    (path_exists (files st) (bundles_dir self) = true ->
     length (filter is_created_line (events_of t)) +
     length (filter is_failure_line (events_of t)) =
     length (glob st (bundles_dir self) "*.yaml")) /\
    (path_exists (files st) (bundles_dir self) = false ->
     events_of t = [] /\ st' = st /\ ok = false).
Proof.
  destruct (build_all_bundles_run self st)
    as [t [st' [ok (Hrun & _ & Hcount & Hmissing & _)]]].
  exists t, st', ok. split; [exact Hrun|]. split; [|exact Hmissing].
  intros Hex. exact (proj2 (Hcount Hex)).
Qed.

(** The validation phase leaves the storage as it is. *)
Lemma validation_phase_run args base_dir st :
  exists t,
    validation_phase made written args base_dir st =
      (t, st, Returned (build_only args || documents_pass st base_dir)) /\
    filter touches_storage (events_of t) = [] /\
    filter is_failure_line (events_of t) = [] /\
    (build_only args = false ->
     invalid_lines t = invalid_documents st base_dir).
Proof.
  unfold validation_phase, documents_pass, invalid_documents.
  destruct (build_only args).
  - exists []. now repeat split.
  - cbn [negb orb]. unfold pbind, say, ask, pret.
    destruct (glob st base_dir "*.opml.xml") as [|p rest] eqn:Hglob.
    + eexists. split; [reflexivity|]. now repeat split.
    + destruct (validate_each_run made written (p :: rest) true st)
        as [t (Hrun & Hst & Hfl & Hinv)].
      rewrite Hrun. cbn [andb].
      destruct (forallb (fun p0 => fst (verdict (files st) p0)) (p :: rest));
        cbn [negb];
        (eexists; split; [reflexivity|]);
        cbn [events_of invalid_lines app];
        rewrite events_of_app, invalid_lines_app, !filter_app, Hst, Hfl, Hinv;
        cbn [events_of invalid_lines filter app];
        rewrite app_nil_r; now repeat split.
Qed.

(** The build phase: skipped under [--validate-only], otherwise all the
    bundles. *)
Lemma build_phase_run args base_dir st :
  exists t st' go,
    build_phase serialize made written args base_dir st =
      (t, st', Returned go) /\
    invalid_lines t = [] /\
    (validate_only args = true -> t = [] /\ st' = st /\ go = true) /\
    (validate_only args = false ->
     (go = true <->
      path_exists (files st) (bundles_dir (BundleBuilder_init base_dir)) = true
      /\ glob st (bundles_dir (BundleBuilder_init base_dir)) "*.yaml" <> []
      /\ filter is_failure_line (events_of t) = []) /\
     (go = true ->
      length (file_writes (events_of t)) =
      length (glob st (bundles_dir (BundleBuilder_init base_dir)) "*.yaml"))).
Proof.
  unfold build_phase.
  destruct (validate_only args); simpl.
  - exists [], st, true. repeat split; discriminate.
  - destruct (build_all_bundles_run (BundleBuilder_init base_dir) st)
      as [t [st' [ok (Hrun & Hok & Hcount & _ & Hinv)]]].
    unfold pbind at 1. rewrite Hrun.
    destruct ok; simpl; unfold pbind, say, pret;
      (do 3 eexists; split; [reflexivity|]);
      rewrite invalid_lines_app, events_of_app, Hinv, !filter_app,
        file_writes_app; simpl; rewrite !app_nil_r.
    + split; [reflexivity|]. split; [discriminate|]. intros _.
      split; [exact Hok|]. intros _.
      destruct (proj1 Hok eq_refl) as (Hex & _ & Hnofail).
      destruct (Hcount Hex) as [Hfiles _]. rewrite Hnofail in Hfiles.
      simpl in Hfiles.
      rewrite ?length_app. simpl. lia.
    + split; [reflexivity|]. split; [discriminate|]. intros _.
      split; [exact Hok|discriminate].
Qed.

Lemma file_writes_untouched t :
  filter touches_storage t = [] -> file_writes t = [].
Proof.
  induction t as [|ev t IH]; [reflexivity|].
  destruct ev; simpl; try discriminate. exact IH.
Qed.

(** What [main] does, by phase. *)
Lemma main_run args base_dir st :
  exists t st' code,
    main serialize made written args base_dir st = (t, st', Returned code) /\
    (code = 0 \/ code = 1) /\
    (build_only args = false ->
     invalid_lines t = invalid_documents st base_dir) /\
    (build_only args || documents_pass st base_dir = false ->
     code = 1 /\ st' = st /\
     filter touches_storage (events_of t) = []) /\
    (validate_only args = true ->
     st' = st /\ filter touches_storage (events_of t) = [] /\
     (code = 0 <-> build_only args || documents_pass st base_dir = true)) /\
    (validate_only args = false ->
     (code = 0 <->
      build_only args || documents_pass st base_dir = true /\
      path_exists (files st) (bundles_dir (BundleBuilder_init base_dir)) = true
      /\ glob st (bundles_dir (BundleBuilder_init base_dir)) "*.yaml" <> []
      /\ filter is_failure_line (events_of t) = []) /\
     (code = 0 ->
      length (file_writes (events_of t)) =
      length (glob st (bundles_dir (BundleBuilder_init base_dir)) "*.yaml"))).
Proof.
  destruct (validation_phase_run args base_dir st)
    as [tv (Hv & Hvst & Hvfl & Hvinv)].
  destruct (build_phase_run args base_dir st)
    as [tb [st' [go (Hb & Hbinv & Hskip & Hbuild)]]].
  unfold main, pbind, say. rewrite Hv.
  destruct (build_only args || documents_pass st base_dir) eqn:Hpass;
    cbn [negb].
  - rewrite Hb.
    destruct go; cbn [negb]; unfold pret;
      (do 3 eexists; split; [reflexivity|]);
      cbn [app events_of invalid_lines];
      rewrite !events_of_app, !invalid_lines_app, !filter_app,
        !file_writes_app, Hvst, Hvfl, Hbinv,
        (file_writes_untouched _ Hvst);
      cbn [app events_of invalid_lines filter file_writes];
      rewrite ?app_nil_r.
    + split; [now left|]. split; [exact Hvinv|].
      split; [discriminate|]. split.
      * intros Hvo. destruct (Hskip Hvo) as (-> & -> & _).
        now repeat split.
      * intros Hvo. destruct (Hbuild Hvo) as [Hiff Hcount].
        split; [|intros _; now apply Hcount].
        split; [intros _; split; [reflexivity|now apply Hiff]|reflexivity].
    + split; [now right|]. split; [exact Hvinv|].
      split; [discriminate|]. split.
      * intros Hvo. destruct (Hskip Hvo) as (_ & _ & Hgo). discriminate Hgo.
      * intros Hvo. destruct (Hbuild Hvo) as [Hiff _].
        split; [|discriminate].
        split; [discriminate|].
        intros (_ & Hrest). apply Hiff in Hrest. discriminate Hrest.
  - unfold pret. do 3 eexists. split; [reflexivity|].
    cbn [app events_of invalid_lines].
    rewrite ?app_nil_r.
    split; [now right|]. split; [exact Hvinv|].
    split; [now repeat split|]. split.
    + intros _. split; [reflexivity|]. split; [exact Hvst|].
      split; discriminate.
    + intros _. split; [|discriminate].
      split; [discriminate|now intros (H & _)].
Qed.

(** X14: [main] never raises and its exit status is 0 or 1.  With the
    build enabled it is 0 exactly when validation is skipped or passes (at
    least one document, all valid), the bundles directory exists and lists
    a configuration, and no build printed a failure. *)
Theorem main_exit_status args base_dir st :
  exists t st' code,
    main serialize made written args base_dir st = (t, st', Returned code) /\
    (code = 0 \/ code = 1) /\
    (validate_only args = false ->
     (code = 0 <->
      build_only args || documents_pass st base_dir = true /\
      path_exists (files st) (bundles_dir (BundleBuilder_init base_dir)) = true
      /\ glob st (bundles_dir (BundleBuilder_init base_dir)) "*.yaml" <> []
      /\ filter is_failure_line (events_of t) = [])).
Proof.
  destruct (main_run args base_dir st)
    as [t [st' [code (Hrun & Hcode & _ & _ & _ & Hbuild)]]].
  exists t, st', code. split; [exact Hrun|]. split; [exact Hcode|].
  intros Hvo. exact (proj1 (Hbuild Hvo)).
Qed.

(** X15: validation comes first and is complete: unless it is skipped,
    every invalid document is reported with its reason, not only the
    first, and when no document is found or one is invalid [main] returns
    1 without creating a directory or writing a file. *)
Theorem main_stops_at_invalid_documents args base_dir st :
  build_only args = false ->
  exists t st' code,
    main serialize made written args base_dir st = (t, st', Returned code) /\
    invalid_lines t = invalid_documents st base_dir /\
    (documents_pass st base_dir = false ->
     code = 1 /\ st' = st /\ filter touches_storage (events_of t) = []).
Proof.
  intros Hbo.
  destruct (main_run args base_dir st)
    as [t [st' [code (Hrun & _ & Hinv & Hstop & _)]]].
  exists t, st', code. split; [exact Hrun|]. split; [exact (Hinv Hbo)|].
  intros Hfail. apply Hstop. now rewrite Hbo, Hfail.
Qed.

(** X16: under [--validate-only] nothing is built: no directory is
    created, no file written, the storage is left as it was, and the exit
    status is 0 exactly when validation is skipped as well or passes. *)
Theorem main_validate_only_writes_nothing args base_dir st :
  validate_only args = true ->
  exists t code,
    main serialize made written args base_dir st = (t, st, Returned code) /\
    filter touches_storage (events_of t) = [] /\
    (code = 0 <-> build_only args || documents_pass st base_dir = true).
Proof.
  intros Hvo.
  destruct (main_run args base_dir st)
    as [t [st' [code (Hrun & _ & _ & _ & Hskip & _)]]].
  destruct (Hskip Hvo) as (-> & Hnone & Hiff).
  now exists t, code.
Qed.

(** X17: when [main] builds and exits with 0, every configuration listed
    in the bundles directory has had its file written: as many files as
    configurations, and at least one. *)
Theorem main_success_writes_every_bundle args base_dir st t st' :
  validate_only args = false ->
  main serialize made written args base_dir st = (t, st', Returned 0) ->
  length (file_writes (events_of t)) =
    length (glob st (bundles_dir (BundleBuilder_init base_dir)) "*.yaml") /\
  glob st (bundles_dir (BundleBuilder_init base_dir)) "*.yaml" <> [].
Proof.
  intros Hvo Hmain.
  destruct (main_run args base_dir st)
    as [t0 [st0 [code (Hrun & _ & _ & _ & _ & Hbuild)]]].
  rewrite Hmain in Hrun. injection Hrun as <- <- <-.
  destruct (Hbuild Hvo) as [Hiff Hcount].
  split; [now apply Hcount|].
  now destruct (proj1 Hiff eq_refl) as (_ & _ & Hne & _).
Qed.

End DriverProperties.

(** ** The further properties on the sample storages *)

Lemma validate_rejects_rss_root :
  ET_parse library_world (Join repo "rss.xml") = Returned doc_rss /\
  validate_opml library_world (Join repo "rss.xml") =
    ([], Returned (false, "Root element is 'rss', expected 'opml'")).
Proof.
  split; [reflexivity|].
  apply (validate_rejects_other_root library_world (Join repo "rss.xml")
           doc_rss eq_refl).
  discriminate.
Defined.

Lemma validate_accepts_sample_document :
  exists root,
    ET_parse library_world (Join repo "a.opml.xml") = Returned root /\
    tag root = "opml" /\
    find root "head" <> None /\
    find root "body" <> None /\
    0 < length (findall_rss root).
Proof.
  exact (proj1 (proj1 (validate_accepts_exactly
                         library_world (Join repo "a.opml.xml")
                         [Stdout (ValidReport (Join repo "a.opml.xml") 3)]
                         true "" eq_refl))
           eq_refl).
Defined.

Lemma validate_rejects_sample_without_feeds :
  findall_rss doc_no_feeds = [] /\
  validate_opml library_world (Join repo "none.opml.xml") =
    ([], Returned (false, "No RSS feeds found in file")).
Proof.
  split; [reflexivity|].
  apply (validate_rejects_document_without_feeds
           library_world (Join repo "none.opml.xml") doc_no_feeds);
    try reflexivity; discriminate.
Defined.

Lemma tech_build_writes_the_merged_content :
  exists tree,
    file_writes (trace (build_bundle sample_world write_xml builder
                                     (config_path "tech.yaml"))) =
      [(Join (Join repo "dist") "tech.opml.xml", write_xml tree)] /\
    content tree =
      content
        (bundle_document "Tech"
           (body_children doc_a ++ body_children doc_b)).
Proof.
  assert (Hchecks : checks_return sample_world builder (sources_of tech_config))
    by each_source.
  exact (build_writes_the_merged_content
           sample_world write_xml builder (config_path "tech.yaml")
           tech_config eq_refl Hchecks eq_refl eq_refl).
Defined.

Lemma merge_of_two_sample_lists :
  merge_opml_files library_world builder
    (["a.opml.xml"; "gone.opml.xml"] ++ ["broken.opml.xml"; "b.opml.xml"])
    "T" "" =
  ([Stdout (WarnNotFound "gone.opml.xml")] ++
   [Stdout (WarnFailed "broken.opml.xml" "mismatched tag: line 3, column 2")],
   Returned (bundle_document "T"
               (body_children (bundle_document "T" (body_children doc_a)) ++
                body_children (bundle_document "T" (body_children doc_b))))).
Proof.
  exact (merge_of_appended_sources
           library_world builder
           ["a.opml.xml"; "gone.opml.xml"] ["broken.opml.xml"; "b.opml.xml"]
           "T" ""
           [Stdout (WarnNotFound "gone.opml.xml")]
           [Stdout (WarnFailed "broken.opml.xml"
                               "mismatched tag: line 3, column 2")]
           (bundle_document "T" (body_children doc_a))
           (bundle_document "T" (body_children doc_b))
           eq_refl eq_refl).
Defined.

Lemma mixed_merge_prints_two_warnings :
  merge_opml_files library_world builder (sources_of mixed_config)
                   "Mixed" "with failures" =
    ([Stdout (WarnNotFound "gone.opml.xml");
      Stdout (WarnFailed "broken.opml.xml" "mismatched tag: line 3, column 2")],
     Returned (bundle_document "Mixed"
                 (body_children doc_a ++ body_children doc_b))) /\
  length [Stdout (WarnNotFound "gone.opml.xml");
          Stdout (WarnFailed "broken.opml.xml"
                             "mismatched tag: line 3, column 2")] =
    length (filter (fun s => negb (is_loaded library_world builder s))
                   (sources_of mixed_config)).
Proof.
  split; [reflexivity|].
  exact (proj1 (merge_warns_once_per_skipped_source
                  library_world builder (sources_of mixed_config)
                  "Mixed" "with failures" _ _ eq_refl)).
Defined.

Lemma document_without_body_between_two_sources :
  find doc_no_body "body" = None /\
  merge_opml_files library_world builder
    ["a.opml.xml"; "nobody.opml.xml"; "b.opml.xml"] "T" "" =
  merge_opml_files library_world builder ["a.opml.xml"; "b.opml.xml"] "T" "".
Proof.
  split; [reflexivity|].
  exact (source_without_body_is_skipped_silently
           library_world builder ["a.opml.xml"] "nobody.opml.xml"
           ["b.opml.xml"] "T" "" doc_no_body eq_refl eq_refl eq_refl).
Defined.

Lemma written_tech_bundle_validates :
  validate_opml library_world (Join (output_dir builder) "tech.opml.xml") =
    ([Stdout (ValidReport (Join (output_dir builder) "tech.opml.xml") 5)],
     Returned (true, "")).
Proof.
  exact (written_bundle_validates_iff_it_has_feeds
           library_world builder tech_config
           (Join (output_dir builder) "tech.opml.xml") eq_refl).
Defined.

Lemma tech_build_writes_one_file :
  length (file_writes (trace (build_bundle sample_world write_xml builder
                                           (config_path "tech.yaml")))) = 1 /\
  length (filter is_failure_line
            (trace (build_bundle sample_world write_xml builder
                                 (config_path "empty.yaml")))) = 1.
Proof.
  split.
  - exact (proj1 (proj1 (build_writes_a_file_iff_it_succeeds
                           sample_world write_xml builder
                           (config_path "tech.yaml")) eq_refl)).
  - exact (proj1 (proj2 (build_writes_a_file_iff_it_succeeds
                           sample_world write_xml builder
                           (config_path "empty.yaml")) eq_refl)).
Defined.

Lemma main_reports_both_invalid_documents :
  exists t st' code,
    main write_xml after_mkdir after_write (mkArgs false false) repo
         flawed_storage = (t, st', Returned code) /\
    invalid_lines t =
      [(Join repo "broken.opml.xml",
        "XML parsing error: mismatched tag: line 3, column 2");
       (Join repo "none.opml.xml", "No RSS feeds found in file")] /\
    code = 1.
Proof.
  destruct (main_stops_at_invalid_documents
              write_xml after_mkdir after_write (mkArgs false false) repo
              flawed_storage eq_refl)
    as [t [st' [code (Hrun & Hinv & Hstop)]]].
  exists t, st', code. split; [exact Hrun|]. split; [exact Hinv|].
  exact (proj1 (Hstop eq_refl)).
Defined.

Lemma main_validate_only_on_sample :
  exists t code,
    main write_xml after_mkdir after_write (mkArgs true false) repo
         good_storage = (t, good_storage, Returned code) /\
    filter touches_storage (events_of t) = [] /\
    code = 0.
Proof.
  destruct (main_validate_only_writes_nothing
              write_xml after_mkdir after_write (mkArgs true false) repo
              good_storage eq_refl)
    as [t [code (Hrun & Hnone & Hiff)]].
  exists t, code. split; [exact Hrun|]. split; [exact Hnone|].
  exact (proj2 Hiff eq_refl).
Defined.

Lemma main_builds_both_sample_bundles :
  snd (main write_xml after_mkdir after_write (mkArgs false false) repo
            good_storage) = Returned 0 /\
  length (file_writes
            (events_of
               (fst (fst (main write_xml after_mkdir after_write
                               (mkArgs false false) repo good_storage))))) = 2.
Proof.
  split; [reflexivity|].
  exact (proj1 (main_success_writes_every_bundle
                  write_xml after_mkdir after_write (mkArgs false false) repo
                  good_storage
                  (fst (fst (main write_xml after_mkdir after_write
                                  (mkArgs false false) repo good_storage)))
                  good_storage eq_refl eq_refl)).
Defined.

Lemma second_bundle_is_built_after_the_first_fails :
  exists t st' ok,
    build_all_bundles write_xml after_mkdir after_write builder
                      half_built_storage = (t, st', Returned ok) /\
    length (filter is_created_line (events_of t)) +
    length (filter is_failure_line (events_of t)) = 2.
Proof.
  destruct (build_all_bundles_attempts_every_configuration
              write_xml after_mkdir after_write builder half_built_storage)
    as [t [st' [ok (Hrun & Hcount & _)]]].
  exists t, st', ok. split; [exact Hrun|exact (Hcount eq_refl)].
Defined.

Lemma main_exit_status_on_half_built_sample :
  exists t st' code,
    main write_xml after_mkdir after_write (mkArgs false true) repo
         half_built_storage = (t, st', Returned code) /\
    (code = 0 \/ code = 1) /\
    (code = 0 -> filter is_failure_line (events_of t) = []).
Proof.
  destruct (main_exit_status
              write_xml after_mkdir after_write (mkArgs false true) repo
              half_built_storage)
    as [t [st' [code (Hrun & Hcode & Hiff)]]].
  exists t, st', code. split; [exact Hrun|]. split; [exact Hcode|].
  intros Hzero.
  now destruct (proj1 (Hiff eq_refl) Hzero) as (_ & _ & _ & Hnone).
Defined.

(** On the sample storage the first configuration is empty and fails, the
    second is built all the same, and the exit status is 1. *)
Example main_goes_on_after_a_failed_bundle :
  let '(t, _, code) :=
    main write_xml after_mkdir after_write (mkArgs false true) repo
         half_built_storage in
  code = Returned 1 /\
  length (file_writes (events_of t)) = 1 /\
  length (filter is_failure_line (events_of t)) = 1.
Proof. repeat split; reflexivity. Qed.
